(** * Route handlers of the shop backend

    A shallow embedding of the Express route handlers in
    [server/Routes/ProductRoutes.js] and [server/Routes/UserRoutes.js]
    (the latter holds both [userRouter] and [orderRouter]).

    - A Mongo collection is a list of documents in insertion order;
      [findById] and [findOne] return the first match together with its
      position, and [save] writes the document back at that position.
    - A handler is a function from the request input and the database to
      the new database and the response.  [res.status(c); throw new Error(m)]
      and [res.status(c).json({message: m})] both give status [c] with the
      body [{message: m}].
    - The JavaScript numbers the handlers calculate with, the ratings of
      reviews and the quantities of cart items, are IEEE 754 doubles
      ([float], with the operations of the kernel): [+] and [/] round to
      the nearest double, and [NaN] and the infinities are values.  The
      numbers the handlers only copy or test for zero are exact rationals
      ([Q], prices) and integers ([Z], stock counts and time stamps).
    - What the handlers import from files that are not part of the sources
      (token signing and verification, password hashing) is a parameter,
      gathered in the record [Platform]. *)

From Stdlib Require Import ZArith QArith Qround Lia Floats.
From stdpp Require Import base option list strings sorting.

Local Open Scope string_scope.
Local Open Scope list_scope.

(** An [ObjectId], as its [toString()]. *)
Definition Id := string.

(** The length of an array as a JavaScript number.  An array has fewer
    than 2^32 elements, so the conversion is exact. *)
Definition number (n : nat) : float :=
  PrimFloat.of_uint63 (Uint63.of_Z (Z.of_nat n)).

(** ** Documents *)

Module Review.
(** The object literal pushed by the review handler. *)
Record t := mk {
  name : string;
  rating : float;
  comment : string;
  user : Id
}.
End Review.

Module Product.
(** Modelled from the spec: the fields of a product.  [ProductModel.js] is
    not part of the sources; these are the fields of section 3 of the
    spec, which are also the ones the handlers read and assign. *)
Record t := mk {
  _id : Id;
  name : string;
  image : string;
  description : string;
  price : Q;
  countInStock : Z;
  rating : float;
  numReviews : nat;
  reviews : list Review.t
}.

Definition set_reviews (rs : list Review.t) (p : t) : t :=
  mk (_id p) (name p) (image p) (description p) (price p) (countInStock p)
     (rating p) (numReviews p) rs.

Definition set_numReviews (n : nat) (p : t) : t :=
  mk (_id p) (name p) (image p) (description p) (price p) (countInStock p)
     (rating p) n (reviews p).

Definition set_rating (r : float) (p : t) : t :=
  mk (_id p) (name p) (image p) (description p) (price p) (countInStock p)
     r (numReviews p) (reviews p).
End Product.

Module CartItem.
(** An item of [user.cart], as the cart handler pushes it. *)
Record t := mk {
  product : Id;
  quantity : float
}.

Definition set_quantity (q : float) (c : t) : t := mk (product c) q.
End CartItem.

Module User.
(** Modelled from the spec: the fields of a user.  [UserModel.js] is not
    part of the sources; these are the fields of section 3 of the spec,
    with the names the handlers use. *)
Record t := mk {
  _id : Id;
  name : string;
  email : string;
  password : string;
  isAdmin : bool;
  createdAt : Z;
  passwordResetToken : option string;
  passwordResetExpires : option Z;
  emailResetToken : option string;
  emailResetExpires : option Z;
  cart : list CartItem.t;
  favorites : list Id;
  notifications : list Id
}.

Definition set_cart (c : list CartItem.t) (u : t) : t :=
  mk (_id u) (name u) (email u) (password u) (isAdmin u) (createdAt u)
     (passwordResetToken u) (passwordResetExpires u)
     (emailResetToken u) (emailResetExpires u)
     c (favorites u) (notifications u).

Definition set_password (p : string) (u : t) : t :=
  mk (_id u) (name u) (email u) p (isAdmin u) (createdAt u)
     (passwordResetToken u) (passwordResetExpires u)
     (emailResetToken u) (emailResetExpires u)
     (cart u) (favorites u) (notifications u).

Definition set_passwordResetToken (x : option string) (u : t) : t :=
  mk (_id u) (name u) (email u) (password u) (isAdmin u) (createdAt u)
     x (passwordResetExpires u)
     (emailResetToken u) (emailResetExpires u)
     (cart u) (favorites u) (notifications u).

Definition set_passwordResetExpires (x : option Z) (u : t) : t :=
  mk (_id u) (name u) (email u) (password u) (isAdmin u) (createdAt u)
     (passwordResetToken u) x
     (emailResetToken u) (emailResetExpires u)
     (cart u) (favorites u) (notifications u).
End User.

Module OrderItem.
(** Modelled from the spec: a line item of an order.  [OrderModel.js] is
    not part of the sources; the handlers copy the items and never look
    inside them. *)
Record t := mk {
  product : Id;
  qty : Z
}.
End OrderItem.

Module PaymentResult.
(** The object [PUT /:id/pay] stores in [order.paymentResult]. *)
Record t := mk {
  id : option string;
  status : option string;
  update_time : option string;
  email_address : option string
}.
End PaymentResult.

Module Order.
(** Modelled from the spec: the fields of an order.  [OrderModel.js] is not
    part of the sources; these are the fields of section 3 of the spec
    together with [isCancelled] and [cancelledAt], which the cancel handler
    assigns. *)
Record t := mk {
  _id : Id;
  user : Id;
  orderItems : list OrderItem.t;
  shippingAddress : option string;
  paymentMethod : option string;
  itemsPrice : option Q;
  taxPrice : option Q;
  shippingPrice : option Q;
  totalPrice : option Q;
  isPaid : bool;
  paidAt : option Z;
  paymentResult : option PaymentResult.t;
  isDelivered : bool;
  deliveredAt : option Z;
  status : option string;
  isCancelled : bool;
  cancelledAt : option Z
}.

Definition set_status (s : option string) (o : t) : t :=
  mk (_id o) (user o) (orderItems o) (shippingAddress o) (paymentMethod o)
     (itemsPrice o) (taxPrice o) (shippingPrice o) (totalPrice o)
     (isPaid o) (paidAt o) (paymentResult o) (isDelivered o) (deliveredAt o)
     s (isCancelled o) (cancelledAt o).

Definition set_isCancelled (b : bool) (o : t) : t :=
  mk (_id o) (user o) (orderItems o) (shippingAddress o) (paymentMethod o)
     (itemsPrice o) (taxPrice o) (shippingPrice o) (totalPrice o)
     (isPaid o) (paidAt o) (paymentResult o) (isDelivered o) (deliveredAt o)
     (status o) b (cancelledAt o).

Definition set_cancelledAt (x : option Z) (o : t) : t :=
  mk (_id o) (user o) (orderItems o) (shippingAddress o) (paymentMethod o)
     (itemsPrice o) (taxPrice o) (shippingPrice o) (totalPrice o)
     (isPaid o) (paidAt o) (paymentResult o) (isDelivered o) (deliveredAt o)
     (status o) (isCancelled o) x.
End Order.

(** ** The database and the responses *)

Record Db := mkDb {
  users : list User.t;
  products : list Product.t;
  orders : list Order.t
}.

Definition set_users (us : list User.t) (db : Db) : Db :=
  mkDb us (products db) (orders db).
Definition set_products (ps : list Product.t) (db : Db) : Db :=
  mkDb (users db) ps (orders db).
Definition set_orders (os : list Order.t) (db : Db) : Db :=
  mkDb (users db) (products db) os.

(** The object sent by login and register. *)
Record Session := mkSession {
  s_id : Id;
  s_name : string;
  s_email : string;
  s_isAdmin : bool;
  s_token : string;
  s_createdAt : option Z
}.

Inductive Body :=
| Message (m : string)
| OrderDoc (o : Order.t)
| SessionDoc (s : Session).

Record Response := mkResponse {
  status : nat;
  body : Body
}.

(** [res.json(b)]: the status is 200 unless it was set before. *)
Definition json (b : Body) : Response := mkResponse 200 b.

(** [res.status(c).json(b)]. *)
Definition status_json (c : nat) (b : Body) : Response := mkResponse c b.

(** Modelled from the spec: [res.status(c); throw new Error(m)].  The error
    middleware is not part of the sources; by section 7 of the spec it
    answers with the status set beforehand and the body [{message: m}]. *)
Definition throw (c : nat) (m : string) : Response := mkResponse c (Message m).

(** What a handler reads from outside the request: the clock and the
    [ObjectId] the driver gives to a new document. *)
Record Env := mkEnv {
  now : Z;
  oid : Id
}.

(** The imports that are not part of the sources. *)
Record Platform := mkPlatform {
  (** [jwt.verify] of [AuthMiddleware.js]: the user id a valid token carries. *)
  verifyToken : string -> option Id;
  (** [generateToken] of [utils/generateToken.js]. *)
  generateToken : Id -> string;
  (** the hashing done by [UserModel.js] when a password is saved. *)
  hashPassword : string -> string;
  (** [user.matchPassword(entered)], on the stored hash. *)
  matchPassword : string -> string -> bool;
  (** the message of the 401 answer of [protect], which may depend on
      whether a token was sent. *)
  notAuthorized : option string -> string
}.

(** ** Collections *)

Section Collection.
Context {D : Type} (key : D -> Id).

(** [Model.findById(id)]: the first document whose [_id] is [id], with
    its position in the collection. *)
Definition findById (id : Id) (c : list D) : option (nat * D) :=
  list_find (λ d, key d = id) c.

(** [doc.save()] for a document read at position [i]. *)
Definition save (i : nat) (d : D) (c : list D) : list D := <[i := d]> c.

(** [new Model(..).save()] and [Model.create(..)]. *)
Definition create (d : D) (c : list D) : list D := c ++ [d].
End Collection.

(** ** Routes and the auth gate *)

(** [req.user]: the user the gate attaches to the request, without the
    password hash. *)
Record AuthUser := mkAuthUser {
  au_id : Id;
  au_name : string;
  au_email : string;
  au_isAdmin : bool
}.

Definition authUser (u : User.t) : AuthUser :=
  mkAuthUser (User._id u) (User.name u) (User.email u) (User.isAdmin u).

(** A route is registered either with the handler alone or with [protect]
    before it; [I] is what the handler reads from [req.params] and
    [req.body]. *)
Inductive Route (I : Type) :=
| Open (h : Env -> I -> Db -> Db * Response)
| Protected (h : Env -> AuthUser -> I -> Db -> Db * Response).
Arguments Open {I} h.
Arguments Protected {I} h.

Section Gate.
Variable P : Platform.

(** Modelled from the spec: [protect] of [AuthMiddleware.js], which is not
    part of the sources.  It decodes and verifies the bearer token and
    resolves the user it names; a missing or invalid token or an unknown
    user fails with 401. *)
Definition protect (token : option string) (db : Db) : option AuthUser :=
  t ← token;
  uid ← verifyToken P t;
  (authUser ∘ snd) <$> findById User._id uid (users db).

(** A request with bearer token [token] and input [i] sent to route [r]. *)
Definition run {I} (r : Route I) (e : Env) (token : option string) (i : I)
    (db : Db) : Db * Response :=
  match r with
  | Open h => h e i db
  | Protected h =>
      match protect token db with
      | Some u => h e u i db
      | None => (db, throw 401 (notAuthorized P token))
      end
  end.
End Gate.

(** ** Order routes ([orderRouter] of UserRoutes.js) *)

Module OrderRoutes.

(** The fields [POST /] takes from [req.body]; a field the body does not
    have is [None] ([undefined]). *)
Record CreateBody := mkCreateBody {
  orderItems : option (list OrderItem.t);
  shippingAddress : option string;
  paymentMethod : option string;
  itemsPrice : option Q;
  taxPrice : option Q;
  shippingPrice : option Q;
  totalPrice : option Q
}.

(** Modelled from the spec: [new Order({..})].  [OrderModel.js] is not
    part of the sources; a new order has its flags unset and no time
    stamps, and an item list that was not given is the empty list. *)
Definition newOrder (id : Id) (owner : Id) (b : CreateBody) : Order.t :=
  Order.mk id owner (default [] (orderItems b))
    (shippingAddress b) (paymentMethod b)
    (itemsPrice b) (taxPrice b) (shippingPrice b) (totalPrice b)
    false None None false None None false None.

(** [orderItems && orderItems.length === 0] *)
Definition noOrderItems (items : option (list OrderItem.t)) : bool :=
  match items with
  | Some l => Nat.eqb (length l) 0
  | None => false
  end.

(** [orderRouter.post("/", protect, ..)] *)
Definition post_orders : Route CreateBody :=
  Protected (λ e user b db,
    if noOrderItems (orderItems b) then
      (db, throw 400 "No order items")
    else
      let order := newOrder (oid e) (au_id user) b in
      (set_orders (create order (orders db)) db,
       status_json 201 (OrderDoc order))).

(** [orderRouter.get('/orders/:id/cancel', ..)]: registered without
    [protect]. *)
Definition get_orders_id_cancel : Route Id :=
  Open (λ e orderId db,
    match findById Order._id orderId (orders db) with
    | None => (db, status_json 404 (Message "Order not found"))
    | Some (i, order) =>
        let order := Order.set_status (Some "Cancelled") order in
        (set_orders (save i order (orders db)) db, json (OrderDoc order))
    end).

(** [orderRouter.put("/:id/cancel", protect, ..)] *)
Definition put_id_cancel : Route Id :=
  Protected (λ e _ id db,
    match findById Order._id id (orders db) with
    | Some (i, order) =>
        if Order.isPaid order then
          (db, throw 400 "Cannot cancel a paid order")
        else
          let order := Order.set_isCancelled true order in
          let order := Order.set_cancelledAt (Some (now e)) order in
          (set_orders (save i order (orders db)) db, json (OrderDoc order))
    | None => (db, throw 404 "Order not found")
    end).

End OrderRoutes.


(** ** User routes ([userRouter] of UserRoutes.js) *)

(** [Model.findOne({field: value})]: the first document that matches. *)
Definition findOne {D : Type} (F : D -> Prop) `{!∀ d, Decision (F d)}
    (c : list D) : option (nat * D) :=
  list_find F c.

Module UserRoutes.

Record LoginBody := mkLoginBody {
  l_email : string;
  l_password : string
}.

Record RegisterBody := mkRegisterBody {
  r_name : string;
  r_email : string;
  r_password : string
}.

(** [req.params.token] and [req.body.password] of the reset route. *)
Record ResetInput := mkResetInput {
  p_token : string;
  p_password : string
}.

(** [req.params.id] and the body of the cart route. *)
Record CartInput := mkCartInput {
  c_id : Id;
  c_productId : string;
  c_quantity : float
}.

Section WithPlatform.
Variable P : Platform.

(** [userRouter.post("/login", ..)].  The router registers the same
    handler for the same path a second time further down; the first
    registration answers every request. *)
Definition post_login : Route LoginBody :=
  Open (λ e b db,
    match findOne (λ u, User.email u = l_email b) (users db) with
    | Some (_, user) =>
        if matchPassword P (l_password b) (User.password user) then
          (db, json (SessionDoc
                 (mkSession (User._id user) (User.name user) (User.email user)
                    (User.isAdmin user) (generateToken P (User._id user))
                    (Some (User.createdAt user)))))
        else (db, throw 401 "Invalid Email or Password")
    | None => (db, throw 401 "Invalid Email or Password")
    end).

(** Modelled from the spec: [User.create({name, email, password})].
    [UserModel.js] is not part of the sources; the new user is stored with
    the hashed password and the time of its creation, is no admin, and has
    no reset tokens and empty lists. *)
Definition newUser (id : Id) (time : Z) (b : RegisterBody) : User.t :=
  User.mk id (r_name b) (r_email b) (hashPassword P (r_password b)) false time
    None None None None [] [] [].

(** [userRouter.post("/", ..)].  [User.create] gives back the document it
    stored, so the branch for a falsy [user] is never taken. *)
Definition post_users : Route RegisterBody :=
  Open (λ e b db,
    match findOne (λ u, User.email u = r_email b) (users db) with
    | Some _ => (db, throw 400 "User already exists")
    | None =>
        let user := newUser (oid e) (now e) b in
        (set_users (create user (users db)) db,
         status_json 201
           (SessionDoc
              (mkSession (User._id user) (User.name user) (User.email user)
                 (User.isAdmin user) (generateToken P (User._id user)) None)))
    end).

(** [userRouter.put('/reset-password/:token', ..)].  The password is
    hashed when the user is saved. *)
Definition put_reset_password_token : Route ResetInput :=
  Open (λ e b db,
    match findOne (λ u, User.passwordResetToken u = Some (p_token b)) (users db) with
    | None => (db, throw 400 "Invalid or expired token")
    | Some (i, user) =>
        let user := User.set_password (hashPassword P (p_password b)) user in
        let user := User.set_passwordResetToken None user in
        let user := User.set_passwordResetExpires None user in
        (set_users (save i user (users db)) db,
         json (Message "Password reset successful"))
    end).

End WithPlatform.

(** [user.cart.find(..)] followed by [existingCartItem.quantity += quantity]
    on the item found, or by [user.cart.push({product, quantity})]. *)
Definition addToCart (productId : string) (quantity : float)
    (cart : list CartItem.t) : list CartItem.t :=
  match list_find (λ item, CartItem.product item = productId) cart with
  | Some (k, existingCartItem) =>
      <[k := CartItem.set_quantity (CartItem.quantity existingCartItem + quantity)%float
               existingCartItem]> cart
  | None => cart ++ [CartItem.mk productId quantity]
  end.

(** [userRouter.post('/users/:id/cart', ..)] *)
Definition post_users_id_cart : Route CartInput :=
  Open (λ e b db,
    match findById User._id (c_id b) (users db) with
    | None => (db, throw 404 "User not found")
    | Some (i, user) =>
        let user := User.set_cart (addToCart (c_productId b) (c_quantity b) (User.cart user)) user in
        (set_users (save i user (users db)) db,
         json (Message "Product added to cart"))
    end).

End UserRoutes.

(** ** Product routes ([productRoute] of ProductRoutes.js) *)

Module ProductRoutes.

(** [req.params.id] and, from [req.body], [Number(rating)] and [comment]. *)
Record ReviewInput := mkReviewInput {
  v_id : Id;
  v_rating : float;
  v_comment : string
}.

(** [product.reviews.reduce((acc, item) => item.rating + acc, 0)] *)
Definition ratingSum (reviews : list Review.t) : float :=
  fold_left (λ acc item, Review.rating item + acc)%float reviews 0%float.

(** [productRoute.post("/:id/review", protect, ..)] *)
Definition post_id_review : Route ReviewInput :=
  Protected (λ e user b db,
    match findById Product._id (v_id b) (products db) with
    | Some (i, product) =>
        match list_find (λ r, Review.user r = au_id user) (Product.reviews product) with
        | Some _ => (db, throw 400 "Product already Reviewed")
        | None =>
            let review := Review.mk (au_name user) (v_rating b) (v_comment b) (au_id user) in
            let product := Product.set_reviews (Product.reviews product ++ [review]) product in
            let product := Product.set_numReviews (length (Product.reviews product)) product in
            let product :=
              Product.set_rating
                (ratingSum (Product.reviews product)
                 / number (length (Product.reviews product)))%float
                product in
            (set_products (save i product (products db)) db,
             status_json 201 (Message "Reviewed Added"))
        end
    | None => (db, throw 404 "Product not Found")
    end).

(** A run of requests to [POST /:id/review], each with its bearer token,
    served one after the other; the answers are collected in order. *)
Fixpoint submitReviews (P : Platform) (e : Env)
    (reqs : list (option string * ReviewInput)) (db : Db) : Db * list Response :=
  match reqs with
  | [] => (db, [])
  | (token, b) :: reqs =>
      let (db1, r) := run P post_id_review e token b db in
      let (db2, rs) := submitReviews P e reqs db1 in
      (db2, r :: rs)
  end.

(** The arithmetic mean [(r1 + ... + rN) / N], as the specification words
    it, of JavaScript numbers: the sum is taken from the left, starting
    from 0, and is divided by the number of ratings. *)
Definition mean (rs : list float) : float :=
  (fold_left PrimFloat.add rs 0 / number (length rs))%float.

End ProductRoutes.

(** ** Runs of requests *)

(** A request to one of the routes above. *)
Inductive Request :=
| PostLogin (b : UserRoutes.LoginBody)
| PostUsers (b : UserRoutes.RegisterBody)
| PutResetPassword (b : UserRoutes.ResetInput)
| PostCart (b : UserRoutes.CartInput)
| PostReview (b : ProductRoutes.ReviewInput)
| PostOrders (b : OrderRoutes.CreateBody)
| GetOrderCancel (id : Id)
| PutOrderCancel (id : Id).

Definition serve (P : Platform) (e : Env) (token : option string)
    (req : Request) (db : Db) : Db * Response :=
  match req with
  | PostLogin b => run P (UserRoutes.post_login P) e token b db
  | PostUsers b => run P (UserRoutes.post_users P) e token b db
  | PutResetPassword b => run P (UserRoutes.put_reset_password_token P) e token b db
  | PostCart b => run P UserRoutes.post_users_id_cart e token b db
  | PostReview b => run P ProductRoutes.post_id_review e token b db
  | PostOrders b => run P OrderRoutes.post_orders e token b db
  | GetOrderCancel id => run P OrderRoutes.get_orders_id_cancel e token id db
  | PutOrderCancel id => run P OrderRoutes.put_id_cancel e token id db
  end.

(** Requests served one after the other, each at its own time and with its
    own bearer token. *)
Fixpoint serveAll (P : Platform) (reqs : list (Env * option string * Request))
    (db : Db) : Db * list Response :=
  match reqs with
  | [] => (db, [])
  | (e, token, req) :: reqs =>
      let (db1, r) := serve P e token req db in
      let (db2, rs) := serveAll P reqs db1 in
      (db2, r :: rs)
  end.

(** No product has two reviews of the same user. *)
Definition oneReviewPerUser (db : Db) : Prop :=
  Forall (λ p, NoDup (Review.user <$> Product.reviews p)) (products db).

(** The aggregate fields agree with the review list, as they do after
    every review that was accepted. *)
Definition aggregated (p : Product.t) : Prop :=
  Product.numReviews p = length (Product.reviews p) ∧
  Product.rating p
  = (ProductRoutes.ratingSum (Product.reviews p)
     / number (length (Product.reviews p)))%float.

(** No cart has two items of the same product. *)
Definition oneItemPerProduct (db : Db) : Prop :=
  Forall (λ u, NoDup (CartItem.product <$> User.cart u)) (users db).

(** ** A small database for the examples

    Two users, one of them with a reset token that ran out at time 100
    and a cart, two products, the second with one review, and three
    orders, the second of which is paid. *)

Definition demoPlatform : Platform :=
  mkPlatform (λ t, Some t) (String.append "jwt:") (String.append "#")
    (λ entered stored, String.eqb (String.append "#" entered) stored)
    (λ token, match token with
              | Some _ => "Not authorized, token failed"
              | None => "Not authorized, no token"
              end).

Definition alice : User.t :=
  User.mk "u1" "Alice" "alice@x.com" "#secret" false 10 None None None None [] [] [].
Definition bob : User.t :=
  User.mk "u2" "Bob" "bob@x.com" "#hunter2" false 20 (Some "reset-1") (Some 100%Z) None None
    [CartItem.mk "p1" 2; CartItem.mk "p2" 1] [] [].

Definition cream : Product.t :=
  Product.mk "p1" "Honest Hydrogel Cream" "/images/6.png" "face cream" 89 60 4 4 [].
Definition honey : Product.t :=
  Product.mk "p2" "Honey Starter Set" "/images/5.png" "starter kit" 100 10 5 1
    [Review.mk "Alice" 5 "good" "u1"].

Definition demoOrder (id : Id) (paid : bool) : Order.t :=
  Order.mk id "u1" [OrderItem.mk "p1" 1] (Some "Tirana") (Some "Paypal")
    (Some 89%Q) (Some 0%Q) (Some 0%Q) (Some 89%Q)
    paid (if paid then Some 5%Z else None) None false None None false None.

Definition demoDb : Db :=
  mkDb [alice; bob] [cream; honey]
    [demoOrder "o1" false; demoOrder "o2" true; demoOrder "o3" false].

Definition demoEnv : Env := mkEnv 1000 "o4".

(** The body of a [POST /orders] request with the item list [items]. *)
Definition demoBody (items : option (list OrderItem.t)) : OrderRoutes.CreateBody :=
  OrderRoutes.mkCreateBody items (Some "Tirana") (Some "Paypal")
    (Some 35%Q) (Some 0%Q) (Some 0%Q) (Some 35%Q).

(** Two users review the first product of the example database, which was
    seeded with [rating] 4 and [numReviews] 4 and no review. *)
Definition twoReviews : list (option string * ProductRoutes.ReviewInput) :=
  [(Some "u1", ProductRoutes.mkReviewInput "p1" 5 "great"); (Some "u2", ProductRoutes.mkReviewInput "p1" 2 "so-so")].

(** * The other routes of the three routers *)

(** ** Assignments to the other fields *)

Module OrderFields.
Import Order.

Definition set_isPaid (b : bool) (o : t) : t :=
  mk (_id o) (user o) (orderItems o) (shippingAddress o) (paymentMethod o)
     (itemsPrice o) (taxPrice o) (shippingPrice o) (totalPrice o)
     b (paidAt o) (paymentResult o) (isDelivered o) (deliveredAt o)
     (status o) (isCancelled o) (cancelledAt o).

Definition set_paidAt (x : option Z) (o : t) : t :=
  mk (_id o) (user o) (orderItems o) (shippingAddress o) (paymentMethod o)
     (itemsPrice o) (taxPrice o) (shippingPrice o) (totalPrice o)
     (isPaid o) x (paymentResult o) (isDelivered o) (deliveredAt o)
     (status o) (isCancelled o) (cancelledAt o).

Definition set_paymentResult (x : option PaymentResult.t) (o : t) : t :=
  mk (_id o) (user o) (orderItems o) (shippingAddress o) (paymentMethod o)
     (itemsPrice o) (taxPrice o) (shippingPrice o) (totalPrice o)
     (isPaid o) (paidAt o) x (isDelivered o) (deliveredAt o)
     (status o) (isCancelled o) (cancelledAt o).

Definition set_isDelivered (b : bool) (o : t) : t :=
  mk (_id o) (user o) (orderItems o) (shippingAddress o) (paymentMethod o)
     (itemsPrice o) (taxPrice o) (shippingPrice o) (totalPrice o)
     (isPaid o) (paidAt o) (paymentResult o) b (deliveredAt o)
     (status o) (isCancelled o) (cancelledAt o).

Definition set_deliveredAt (x : option Z) (o : t) : t :=
  mk (_id o) (user o) (orderItems o) (shippingAddress o) (paymentMethod o)
     (itemsPrice o) (taxPrice o) (shippingPrice o) (totalPrice o)
     (isPaid o) (paidAt o) (paymentResult o) (isDelivered o) x
     (status o) (isCancelled o) (cancelledAt o).

Definition set_paymentMethod (x : option string) (o : t) : t :=
  mk (_id o) (user o) (orderItems o) (shippingAddress o) x
     (itemsPrice o) (taxPrice o) (shippingPrice o) (totalPrice o)
     (isPaid o) (paidAt o) (paymentResult o) (isDelivered o) (deliveredAt o)
     (status o) (isCancelled o) (cancelledAt o).
End OrderFields.

Module UserFields.
Import User.

Definition set_name (x : string) (u : t) : t :=
  mk (_id u) x (email u) (password u) (isAdmin u) (createdAt u)
     (passwordResetToken u) (passwordResetExpires u)
     (emailResetToken u) (emailResetExpires u)
     (cart u) (favorites u) (notifications u).

Definition set_email (x : string) (u : t) : t :=
  mk (_id u) (name u) x (password u) (isAdmin u) (createdAt u)
     (passwordResetToken u) (passwordResetExpires u)
     (emailResetToken u) (emailResetExpires u)
     (cart u) (favorites u) (notifications u).

Definition set_emailResetToken (x : option string) (u : t) : t :=
  mk (_id u) (name u) (email u) (password u) (isAdmin u) (createdAt u)
     (passwordResetToken u) (passwordResetExpires u)
     x (emailResetExpires u)
     (cart u) (favorites u) (notifications u).

Definition set_emailResetExpires (x : option Z) (u : t) : t :=
  mk (_id u) (name u) (email u) (password u) (isAdmin u) (createdAt u)
     (passwordResetToken u) (passwordResetExpires u)
     (emailResetToken u) x
     (cart u) (favorites u) (notifications u).

Definition set_favorites (x : list Id) (u : t) : t :=
  mk (_id u) (name u) (email u) (password u) (isAdmin u) (createdAt u)
     (passwordResetToken u) (passwordResetExpires u)
     (emailResetToken u) (emailResetExpires u)
     (cart u) x (notifications u).
End UserFields.

Module ProductFields.
Import Product.

Definition set_name (x : string) (p : t) : t :=
  mk (_id p) x (image p) (description p) (price p) (countInStock p)
     (rating p) (numReviews p) (reviews p).

Definition set_image (x : string) (p : t) : t :=
  mk (_id p) (name p) x (description p) (price p) (countInStock p)
     (rating p) (numReviews p) (reviews p).

Definition set_description (x : string) (p : t) : t :=
  mk (_id p) (name p) (image p) x (price p) (countInStock p)
     (rating p) (numReviews p) (reviews p).

Definition set_price (x : Q) (p : t) : t :=
  mk (_id p) (name p) (image p) (description p) x (countInStock p)
     (rating p) (numReviews p) (reviews p).

Definition set_countInStock (x : Z) (p : t) : t :=
  mk (_id p) (name p) (image p) (description p) (price p) x
     (rating p) (numReviews p) (reviews p).
End ProductFields.

(** ** [a || b] on the values of a request body

    A field that the body does not have is [None]; [undefined], the empty
    string and the number 0 are falsy. *)

Definition truthyString (x : option string) : option string :=
  match x with
  | Some s => if decide (s = "") then None else Some s
  | None => None
  end.

Definition truthyQ (x : option Q) : option Q :=
  match x with
  | Some q => if Qeq_bool q 0 then None else Some q
  | None => None
  end.

Definition truthyZ (x : option Z) : option Z :=
  match x with
  | Some z => if Z.eqb z 0 then None else Some z
  | None => None
  end.

(** What the driver writes as an [ObjectId], and what [findById] accepts
    for one: 24 hexadecimal digits.  No route of the routers has a literal
    path segment of that form. *)
Definition isHexDigit (c : Ascii.ascii) : bool :=
  let n := Ascii.nat_of_ascii c in
  ((48 <=? n) && (n <=? 57) || (97 <=? n) && (n <=? 102) || (65 <=? n) && (n <=? 70))%nat.

Definition isObjectId (id : string) : bool :=
  (String.length id =? 24)%nat && forallb isHexDigit (String.list_ascii_of_string id).

(** ** The order of the routes of [orderRouter]

    Express offers a request to the routes of a router in the order of
    their registration, and the first route with the method of the
    request whose path matches answers it: its handlers run, [protect]
    first where it is given, and no later route is tried.  A path is
    matched segment by segment, from where the router is mounted: a
    literal without regard to case, a parameter such as [:id] by any
    segment that is not empty. *)

Inductive Method := GET | POST | PUT | DELETE.

Definition Method_eqb (a b : Method) : bool :=
  match a, b with
  | GET, GET | POST, POST | PUT, PUT | DELETE, DELETE => true
  | _, _ => false
  end.

Inductive Segment :=
| Lit (s : string)
| Param.

Definition lowerChar (c : Ascii.ascii) : Ascii.ascii :=
  let n := Ascii.nat_of_ascii c in
  if ((65 <=? n) && (n <=? 90))%nat then Ascii.ascii_of_nat (n + 32) else c.

Fixpoint lower (s : string) : string :=
  match s with
  | EmptyString => EmptyString
  | String c s => String (lowerChar c) (lower s)
  end.

Fixpoint matches (pattern : list Segment) (path : list string) : bool :=
  match pattern, path with
  | [], [] => true
  | Lit s :: pattern, x :: path => String.eqb (lower s) (lower x) && matches pattern path
  | Param :: pattern, x :: path => negb (String.eqb x "") && matches pattern path
  | _, _ => false
  end.

Module OrderRouter.

(** The routes of [orderRouter], named by method and path. *)
Inductive Name :=
| post_
| get_all
| get_
| get_id
| put_id_pay
| put_id_delivered
| put_id_unpaid
| post_order
| get_orders_id_cancel
| get_orders_id_confirmation
| put_orders_id_shipping
| get_orders_id_shipping
| put_orders_id_payment
| get_orders_id_payment
| get_orders_id_items
| get_orders_id_tracking
| put_orders_id_status
| get_orders_id_status
| put_orders_id
| delete_orders_id
| put_id_cancel.

(** The registrations of [orderRouter], from the first to the last. *)
Definition routes : list (Method * list Segment * Name) :=
  [ (POST, [], post_);
    (GET, [Lit "all"], get_all);
    (GET, [], get_);
    (GET, [Param], get_id);
    (PUT, [Param; Lit "pay"], put_id_pay);
    (PUT, [Param; Lit "delivered"], put_id_delivered);
    (PUT, [Param; Lit "unpaid"], put_id_unpaid);
    (POST, [Lit "order"], post_order);
    (GET, [Lit "orders"; Param; Lit "cancel"], get_orders_id_cancel);
    (GET, [Lit "orders"; Param; Lit "confirmation"], get_orders_id_confirmation);
    (PUT, [Lit "orders"; Param; Lit "shipping"], put_orders_id_shipping);
    (GET, [Lit "orders"; Param; Lit "shipping"], get_orders_id_shipping);
    (PUT, [Lit "orders"; Param; Lit "payment"], put_orders_id_payment);
    (GET, [Lit "orders"; Param; Lit "payment"], get_orders_id_payment);
    (GET, [Lit "orders"; Param; Lit "items"], get_orders_id_items);
    (GET, [Lit "orders"; Param; Lit "tracking"], get_orders_id_tracking);
    (PUT, [Lit "orders"; Param; Lit "status"], put_orders_id_status);
    (GET, [Lit "orders"; Param; Lit "status"], get_orders_id_status);
    (PUT, [Lit "orders"; Param], put_orders_id);
    (DELETE, [Lit "orders"; Param], delete_orders_id);
    (PUT, [Param; Lit "cancel"], put_id_cancel) ].

(** The route that answers a request with the method [m] and the path
    segments [path], when there is one. *)
Definition dispatch (m : Method) (path : list string) : option Name :=
  match List.find (λ r, Method_eqb r.1.1 m && matches r.1.2 path) routes with
  | Some r => Some r.2
  | None => None
  end.

End OrderRouter.

(** [x || old] where [old] is a field that is always there. *)
Definition orOld {A} (x : option A) (old : A) : A := default old x.

(** [Model.findByIdAndRemove(id)] and [doc.remove()] for a document read
    at position [i]. *)
Definition removeAt {D : Type} (i : nat) (c : list D) : list D := delete i c.

(** [.sort({_id: -1})]: by descending [_id]; an [ObjectId] is compared as
    its [toString()]. *)
Definition sortByIdDesc {D : Type} (key : D -> Id) (c : list D) : list D :=
  merge_sort (λ a b, String.le (key b) (key a)) c.

(** ** The answers of these routes *)

Inductive Payload :=
| Plain (b : Body)
| ProductDoc (p : Product.t)
| ProductPage (products : list Product.t) (page : nat) (pages : Z)
| OrderList (os : list Order.t)
| StatusDoc (s : option string)
| UserDoc (u : User.t).

Record Reply := mkReply {
  code : nat;
  payload : Payload
}.

Definition plain (r : Response) : Reply := mkReply (status r) (Plain (body r)).

(** A route whose answer is a [Reply]; as for [Route], registered with or
    without [protect]. *)
Inductive Endpoint (I : Type) :=
| Anyone (h : Env -> I -> Db -> Db * Reply)
| LoggedIn (h : Env -> AuthUser -> I -> Db -> Db * Reply).
Arguments Anyone {I} h.
Arguments LoggedIn {I} h.

Definition call (P : Platform) {I} (r : Endpoint I) (e : Env)
    (token : option string) (i : I) (db : Db) : Db * Reply :=
  match r with
  | Anyone h => h e i db
  | LoggedIn h =>
      match protect P token db with
      | Some u => h e u i db
      | None => (db, plain (throw 401 (notAuthorized P token)))
      end
  end.

(** Modelled from the spec: [admin] of [AuthMiddleware.js], which is not
    part of the sources and is registered after [protect].  It fails with
    403 unless the user that [protect] resolved has the admin flag;
    [denied] is its answer. *)
Definition admin {I R : Type} (denied : R)
    (h : Env -> AuthUser -> I -> Db -> Db * R) : Env -> AuthUser -> I -> Db -> Db * R :=
  λ e user i db, if au_isAdmin user then h e user i db else (db, denied).

(** ** The other order routes ([orderRouter] of UserRoutes.js) *)

Module OrderLifecycle.
Import OrderFields.

(** [req.params.id] and the four fields [PUT /:id/pay] reads from
    [req.body]. *)
Record PayInput := mkPayInput {
  y_id : Id;
  y_body : PaymentResult.t
}.

(** [req.params.id] and [req.body.status]. *)
Record StatusInput := mkStatusInput {
  t_id : Id;
  t_status : option string
}.

(** [req.params.id] and, from [req.body], [status] and [paymentMethod]. *)
Record UpdateInput := mkUpdateInput {
  d_id : Id;
  d_status : option string;
  d_paymentMethod : option string
}.

(** [orderRouter.get("/", protect, ..)]: the orders of the user that is
    logged in. *)
Definition get_root : Endpoint unit :=
  LoggedIn (λ e user _ db,
    let order :=
      sortByIdDesc Order._id
        (List.filter (λ o, bool_decide (Order.user o = au_id user)) (orders db)) in
    (db, mkReply 200 (OrderList order))).

(** [orderRouter.put("/:id/pay", protect, ..)] *)
Definition put_id_pay : Route PayInput :=
  Protected (λ e _ i db,
    match findById Order._id (y_id i) (orders db) with
    | Some (k, order) =>
        let order := set_isPaid true order in
        let order := set_paidAt (Some (now e)) order in
        let order :=
          set_paymentResult
            (Some (PaymentResult.mk
                     (PaymentResult.id (y_body i))
                     (PaymentResult.status (y_body i))
                     (PaymentResult.update_time (y_body i))
                     (PaymentResult.email_address (y_body i))))
            order in
        (set_orders (save k order (orders db)) db, json (OrderDoc order))
    | None => (db, throw 404 "Order Not Found")
    end).

(** [orderRouter.put("/:id/delivered", protect, ..)] *)
Definition put_id_delivered : Route Id :=
  Protected (λ e _ id db,
    match findById Order._id id (orders db) with
    | Some (k, order) =>
        let order := set_isDelivered true order in
        let order := set_deliveredAt (Some (now e)) order in
        (set_orders (save k order (orders db)) db, json (OrderDoc order))
    | None => (db, throw 404 "Order Not Found")
    end).

(** [orderRouter.put("/:id/unpaid", protect, ..)] *)
Definition put_id_unpaid : Route Id :=
  Protected (λ e _ id db,
    match findById Order._id id (orders db) with
    | Some (k, order) =>
        let order := set_isPaid false order in
        let order := set_paidAt None order in
        let order := set_paymentResult None order in
        let order := Order.set_status (Some "Unpaid") order in
        (set_orders (save k order (orders db)) db, json (OrderDoc order))
    | None => (db, throw 404 "Order Not Found")
    end).

(** [orderRouter.post("/order", protect, ..)]: the second route that
    creates an order. *)
Definition post_order : Route OrderRoutes.CreateBody :=
  Protected (λ e user b db,
    if OrderRoutes.noOrderItems (OrderRoutes.orderItems b) then
      (db, throw 400 "No order items")
    else
      let order := OrderRoutes.newOrder (oid e) (au_id user) b in
      let createdOrder := order in
      (set_orders (create order (orders db)) db,
       status_json 201 (OrderDoc createdOrder))).

(** [orderRouter.put('/orders/:id/status', ..)] *)
Definition put_orders_id_status : Route StatusInput :=
  Open (λ e i db,
    match findById Order._id (t_id i) (orders db) with
    | None => (db, status_json 404 (Message "Order not found"))
    | Some (k, order) =>
        let order := Order.set_status (t_status i) order in
        (set_orders (save k order (orders db)) db, json (OrderDoc order))
    end).

(** [orderRouter.get('/orders/:id/status', ..)] *)
Definition get_orders_id_status : Endpoint Id :=
  Anyone (λ e orderId db,
    match findById Order._id orderId (orders db) with
    | None => (db, plain (status_json 404 (Message "Order not found")))
    | Some (_, order) => (db, mkReply 200 (StatusDoc (Order.status order)))
    end).

(** [orderRouter.put('/orders/:id', ..)] *)
Definition put_orders_id : Route UpdateInput :=
  Open (λ e i db,
    match findById Order._id (d_id i) (orders db) with
    | None => (db, status_json 404 (Message "Order not found"))
    | Some (k, order) =>
        let order :=
          Order.set_status
            (match truthyString (d_status i) with
             | Some s => Some s
             | None => Order.status order
             end) order in
        let order :=
          set_paymentMethod
            (match truthyString (d_paymentMethod i) with
             | Some m => Some m
             | None => Order.paymentMethod order
             end) order in
        (set_orders (save k order (orders db)) db, json (OrderDoc order))
    end).

(** [orderRouter.delete('/orders/:id', ..)] *)
Definition delete_orders_id : Route Id :=
  Open (λ e orderId db,
    match findById Order._id orderId (orders db) with
    | None => (db, status_json 404 (Message "Order not found"))
    | Some (k, _) =>
        (set_orders (removeAt k (orders db)) db,
         json (Message "Order deleted successfully"))
    end).

End OrderLifecycle.

(** What [PUT /:id/pay] makes of an order. *)
Definition paid (e : Env) (i : OrderLifecycle.PayInput) (o : Order.t) : Order.t :=
  OrderFields.set_paymentResult
    (Some (PaymentResult.mk
             (PaymentResult.id (OrderLifecycle.y_body i)) (PaymentResult.status (OrderLifecycle.y_body i))
             (PaymentResult.update_time (OrderLifecycle.y_body i))
             (PaymentResult.email_address (OrderLifecycle.y_body i))))
    (OrderFields.set_paidAt (Some (now e)) (OrderFields.set_isPaid true o)).

(** What [PUT /orders/:id] makes of an order. *)
Definition updated (i : OrderLifecycle.UpdateInput) (o : Order.t) : Order.t :=
  OrderFields.set_paymentMethod
    (match truthyString (OrderLifecycle.d_paymentMethod i) with
     | Some m => Some m
     | None => Order.paymentMethod o
     end)
    (Order.set_status
       (match truthyString (OrderLifecycle.d_status i) with
        | Some s => Some s
        | None => Order.status o
        end) o).

(** ** The other user routes ([userRouter] of UserRoutes.js) *)

Module UserAccount.
Import UserFields.

(** The fields [PUT /profile] and [PUT /users/:id] read from [req.body]. *)
Record ProfileBody := mkProfileBody {
  f_name : option string;
  f_email : option string;
  f_password : option string
}.

(** [req.params.id] and the body of [PUT /users/:id]. *)
Record UpdateInput := mkUpdateInput {
  u_id : Id;
  u_body : ProfileBody
}.

(** [req.params.token] and [req.body.email] of the email reset route. *)
Record ResetEmailInput := mkResetEmailInput {
  m_token : string;
  m_email : string
}.

(** [req.params.id], [req.params.product_id] and [req.body.quantity]. *)
Record CartUpdateInput := mkCartUpdateInput {
  k_id : Id;
  k_product_id : string;
  k_quantity : float
}.

(** [req.params.id] and [req.params.product_id]. *)
Record FavoriteInput := mkFavoriteInput {
  a_id : Id;
  a_product_id : string
}.

Section WithPlatform.
Variable P : Platform.

(** [userRouter.put("/profile", protect, ..)].  A password that was
    assigned is hashed when the user is saved. *)
Definition put_profile : Route ProfileBody :=
  Protected (λ e requser b db,
    match findById User._id (au_id requser) (users db) with
    | Some (i, user) =>
        let user := set_name (orOld (truthyString (f_name b)) (User.name user)) user in
        let user := set_email (orOld (truthyString (f_email b)) (User.email user)) user in
        let user :=
          match truthyString (f_password b) with
          | Some p => User.set_password (hashPassword P p) user
          | None => user
          end in
        let updatedUser := user in
        (set_users (save i user (users db)) db,
         json (SessionDoc
                 (mkSession (User._id updatedUser) (User.name updatedUser)
                    (User.email updatedUser) (User.isAdmin updatedUser)
                    (generateToken P (User._id updatedUser))
                    (Some (User.createdAt updatedUser)))))
    | None => (db, throw 404 "User not found")
    end).

(** [userRouter.put('/users/:id', ..)].  Without a new password the stored
    hash is assigned to itself and stays as it is. *)
Definition put_users_id : Endpoint UpdateInput :=
  Anyone (λ e i db,
    match findById User._id (u_id i) (users db) with
    | None => (db, plain (status_json 404 (Message "User not found")))
    | Some (k, user) =>
        let b := u_body i in
        let user := set_name (orOld (truthyString (f_name b)) (User.name user)) user in
        let user := set_email (orOld (truthyString (f_email b)) (User.email user)) user in
        let user :=
          match truthyString (f_password b) with
          | Some p => User.set_password (hashPassword P p) user
          | None => user
          end in
        (set_users (save k user (users db)) db, mkReply 200 (UserDoc user))
    end).

End WithPlatform.

(** [userRouter.put('/reset-email/:token', ..)] *)
Definition put_reset_email_token : Route ResetEmailInput :=
  Open (λ e b db,
    match findOne (λ u, User.emailResetToken u = Some (m_token b)) (users db) with
    | None => (db, throw 400 "Invalid or expired token")
    | Some (i, user) =>
        let user := set_email (m_email b) user in
        let user := set_emailResetToken None user in
        let user := set_emailResetExpires None user in
        (set_users (save i user (users db)) db,
         json (Message "Email reset successful"))
    end).

(** [userRouter.put('/users/:id/cart/:product_id', ..)] *)
Definition put_users_id_cart_product_id : Route CartUpdateInput :=
  Open (λ e b db,
    match findById User._id (k_id b) (users db) with
    | None => (db, status_json 404 (Message "User not found"))
    | Some (i, user) =>
        match list_find (λ item, CartItem.product item = k_product_id b) (User.cart user) with
        | Some (k, cartItem) =>
            let user :=
              User.set_cart
                (<[k := CartItem.set_quantity (k_quantity b) cartItem]> (User.cart user))
                user in
            (set_users (save i user (users db)) db,
             json (Message "Cart updated successfully"))
        | None => (db, status_json 404 (Message "Product not found in cart"))
        end
    end).

(** [userRouter.delete('/users/:id/favorites/:product_id', ..)]:
    [indexOf] and, when the product is there, [splice(index, 1)]. *)
Definition delete_users_id_favorites_product_id : Route FavoriteInput :=
  Open (λ e b db,
    match findById User._id (a_id b) (users db) with
    | None => (db, status_json 404 (Message "User not found"))
    | Some (i, user) =>
        match list_find (λ f, f = a_product_id b) (User.favorites user) with
        | Some (index, _) =>
            let user := set_favorites (delete index (User.favorites user)) user in
            (set_users (save i user (users db)) db,
             json (Message "Product removed from favorites"))
        | None => (db, json (Message "Product removed from favorites"))
        end
    end).

(** [userRouter.delete("/users/:id", protect, admin, ..)]; [notAdmin] is
    the message of the admin gate. *)
Definition delete_users_id (notAdmin : string) : Route Id :=
  Protected (admin (throw 403 notAdmin) (λ e _ id db,
    match findById User._id id (users db) with
    | Some (i, _) =>
        (set_users (removeAt i (users db)) db, json (Message "User removed"))
    | None => (db, throw 404 "User not found")
    end)).

End UserAccount.

(** ** The other product routes ([productRoute] of ProductRoutes.js) *)

Module Catalogue.
Import ProductFields.

(** [req.query.pageNumber], when it is the decimal of a natural number,
    and [req.query.keyword]. *)
Record ListQuery := mkListQuery {
  q_pageNumber : option nat;
  q_keyword : option string
}.

(** The fields [POST /] reads from [req.body]. *)
Record CreateBody := mkCreateBody {
  n_name : string;
  n_price : Q;
  n_description : string;
  n_image : string;
  n_countInStock : Z
}.

(** [req.params.id] and the fields [PUT /:id] reads from [req.body]. *)
Record UpdateInput := mkUpdateInput {
  e_id : Id;
  e_name : option string;
  e_price : option Q;
  e_description : option string;
  e_image : option string;
  e_countInStock : option Z
}.

Definition pageSize : nat := 12.

(** [Number(req.query.pageNumber) || 1] *)
Definition pageOf (pageNumber : option nat) : nat :=
  match pageNumber with
  | Some (S n) => S n
  | _ => 1
  end.

(** [Math.ceil(count / pageSize)] *)
Definition pagesOf (count : nat) : Z :=
  Qceiling (inject_Z (Z.of_nat count) / inject_Z (Z.of_nat pageSize)).

Section WithRegex.
(** [regex keyword name]: whether [name] matches
    [{$regex: keyword, $options: "i"}] in the database. *)
Variable regex : string -> string -> bool.

(** The filter [{...keyword}]: no condition when [req.query.keyword] is
    missing or empty. *)
Definition matching (keyword : option string) (p : Product.t) : bool :=
  match truthyString keyword with
  | Some k => regex k (Product.name p)
  | None => true
  end.

(** [productRoute.get("/", ..)] *)
Definition get_root : Endpoint ListQuery :=
  Anyone (λ e q db,
    let page := pageOf (q_pageNumber q) in
    let found := List.filter (matching (q_keyword q)) (products db) in
    let count := length found in
    let products :=
      take pageSize (drop (pageSize * (page - 1)) (sortByIdDesc Product._id found)) in
    (db, mkReply 200 (ProductPage products page (pagesOf count)))).

End WithRegex.

(** [productRoute.get("/:id", ..)] *)
Definition get_id : Endpoint Id :=
  Anyone (λ e id db,
    match findById Product._id id (products db) with
    | Some (_, product) => (db, mkReply 200 (ProductDoc product))
    | None => (db, plain (throw 404 "Product not Found"))
    end).

(** [productRoute.delete("/:id", protect, admin, ..)] *)
Definition delete_id (notAdmin : string) : Route Id :=
  Protected (admin (throw 403 notAdmin) (λ e _ id db,
    match findById Product._id id (products db) with
    | Some (i, _) =>
        (set_products (removeAt i (products db)) db, json (Message "Product deleted"))
    | None => (db, throw 404 "Product not Found")
    end)).

(** Modelled from the spec: [new Product({..})].  [ProductModel.js] is not
    part of the sources; a new product has no review, and its aggregates
    are those of an empty review list. *)
Definition newProduct (id : Id) (b : CreateBody) : Product.t :=
  Product.mk id (n_name b) (n_image b) (n_description b) (n_price b)
    (n_countInStock b) 0 0 [].

(** [productRoute.post("/", protect, admin, ..)].  [new Product(..)] is an
    object, so the branch for a falsy [product] is never taken. *)
Definition post_root (notAdmin : string) : Endpoint CreateBody :=
  LoggedIn (admin (plain (throw 403 notAdmin)) (λ e _ b db,
    match findOne (λ p, Product.name p = n_name b) (products db) with
    | Some _ => (db, plain (throw 400 "Product name already exist"))
    | None =>
        let product := newProduct (oid e) b in
        (set_products (create product (products db)) db,
         mkReply 201 (ProductDoc product))
    end)).

(** [productRoute.put("/:id", protect, admin, ..)] *)
Definition put_id (notAdmin : string) : Endpoint UpdateInput :=
  LoggedIn (admin (plain (throw 403 notAdmin)) (λ e _ b db,
    match findById Product._id (e_id b) (products db) with
    | Some (i, product) =>
        let product := set_name (orOld (truthyString (e_name b)) (Product.name product)) product in
        let product := set_price (orOld (truthyQ (e_price b)) (Product.price product)) product in
        let product :=
          set_description (orOld (truthyString (e_description b)) (Product.description product))
            product in
        let product := set_image (orOld (truthyString (e_image b)) (Product.image product)) product in
        let product :=
          set_countInStock (orOld (truthyZ (e_countInStock b)) (Product.countInStock product))
            product in
        (set_products (save i product (products db)) db, mkReply 200 (ProductDoc product))
    | None => (db, plain (throw 404 "Product not found"))
    end)).

End Catalogue.

(** The [products] of a page that was answered. *)
Definition pageItems (x : Db * Reply) : list Product.t :=
  match payload x.2 with
  | ProductPage products _ _ => products
  | _ => []
  end.

(** The example database with an administrator as third user. *)
Definition carol : User.t :=
  User.mk "u9" "Carol" "carol@x.com" "#root" true 5 None None None None [] [] [].

Definition adminDb : Db := set_users [alice; bob; carol] demoDb.

(** ** Runs of requests to all the routes *)

(** A request to one of the routes of this development: one of those of
    [Request], or one to the routes above. *)
Inductive AnyRequest :=
| Claimed (r : Request)
| GetMyOrders
| PutOrderPay (i : OrderLifecycle.PayInput)
| PutOrderDelivered (id : Id)
| PutOrderUnpaid (id : Id)
| PostOrder (b : OrderRoutes.CreateBody)
| PutOrderStatus (i : OrderLifecycle.StatusInput)
| GetOrderStatus (id : Id)
| PutOrder (i : OrderLifecycle.UpdateInput)
| DeleteOrder (id : Id)
| PutProfile (b : UserAccount.ProfileBody)
| PutUser (i : UserAccount.UpdateInput)
| PutResetEmail (b : UserAccount.ResetEmailInput)
| PutCart (b : UserAccount.CartUpdateInput)
| DeleteFavorite (b : UserAccount.FavoriteInput)
| DeleteUser (id : Id)
| GetProducts (q : Catalogue.ListQuery)
| GetProduct (id : Id)
| DeleteProduct (id : Id)
| PostProduct (b : Catalogue.CreateBody)
| PutProduct (b : Catalogue.UpdateInput).

(** The answer of a [Route] as a [Reply]. *)
Definition replied (x : Db * Response) : Db * Reply := (x.1, plain x.2).

Section Server.
Variable P : Platform.
Variable regex : string -> string -> bool.
Variable notAdmin : string.

Definition serveAny (e : Env) (token : option string) (req : AnyRequest)
    (db : Db) : Db * Reply :=
  match req with
  | Claimed r => replied (serve P e token r db)
  | GetMyOrders => call P OrderLifecycle.get_root e token () db
  | PutOrderPay i => replied (run P OrderLifecycle.put_id_pay e token i db)
  | PutOrderDelivered id => replied (run P OrderLifecycle.put_id_delivered e token id db)
  | PutOrderUnpaid id => replied (run P OrderLifecycle.put_id_unpaid e token id db)
  | PostOrder b => replied (run P OrderLifecycle.post_order e token b db)
  | PutOrderStatus i => replied (run P OrderLifecycle.put_orders_id_status e token i db)
  | GetOrderStatus id => call P OrderLifecycle.get_orders_id_status e token id db
  | PutOrder i => replied (run P OrderLifecycle.put_orders_id e token i db)
  | DeleteOrder id => replied (run P OrderLifecycle.delete_orders_id e token id db)
  | PutProfile b => replied (run P (UserAccount.put_profile P) e token b db)
  | PutUser i => call P (UserAccount.put_users_id P) e token i db
  | PutResetEmail b => replied (run P UserAccount.put_reset_email_token e token b db)
  | PutCart b => replied (run P UserAccount.put_users_id_cart_product_id e token b db)
  | DeleteFavorite b =>
      replied (run P UserAccount.delete_users_id_favorites_product_id e token b db)
  | DeleteUser id => replied (run P (UserAccount.delete_users_id notAdmin) e token id db)
  | GetProducts q => call P (Catalogue.get_root regex) e token q db
  | GetProduct id => call P Catalogue.get_id e token id db
  | DeleteProduct id => replied (run P (Catalogue.delete_id notAdmin) e token id db)
  | PostProduct b => call P (Catalogue.post_root notAdmin) e token b db
  | PutProduct b => call P (Catalogue.put_id notAdmin) e token b db
  end.

Fixpoint serveAnyAll (reqs : list (Env * option string * AnyRequest))
    (db : Db) : Db * list Reply :=
  match reqs with
  | [] => (db, [])
  | (e, token, req) :: reqs =>
      let (db1, r) := serveAny e token req db in
      let (db2, rs) := serveAnyAll reqs db1 in
      (db2, r :: rs)
  end.

End Server.


(** No two users have the same email. *)
Definition emailsUnique (db : Db) : Prop :=
  NoDup (User.email <$> users db).

(** No two products have the same name. *)
Definition namesUnique (db : Db) : Prop :=
  NoDup (Product.name <$> products db).

(** What no route assigns on an order. *)
Definition orderCore (o : Order.t) :
    Id * Id * list OrderItem.t * option string
    * (option Q * option Q * option Q * option Q) :=
  (Order._id o, Order.user o, Order.orderItems o, Order.shippingAddress o,
   (Order.itemsPrice o, Order.taxPrice o, Order.shippingPrice o, Order.totalPrice o)).

(** The routes that assign [user.email]. *)
Definition assignsEmail (req : AnyRequest) : bool :=
  match req with
  | PutProfile _ | PutUser _ | PutResetEmail _ => true
  | _ => false
  end.

(** ** How a route changes a collection

    Not at all, by saving one document where it was read, by creating one
    at the end, or by removing one.  [R] relates a document that was read
    and the one that is saved; [Q] holds of a document that is created. *)

Inductive Change {D : Type} (R : D -> D -> Prop) (Q : list D -> D -> Prop)
    (c : list D) : list D -> Prop :=
| Unchanged : Change R Q c c
| Saved k d d' : c !! k = Some d -> R d d' -> Change R Q c (save k d' c)
| Created d' : Q c d' -> Change R Q c (create d' c)
| Removed k : Change R Q c (removeAt k c).

(** An order that is saved keeps what [orderCore] holds. *)
Definition orderStep (o o' : Order.t) : Prop := orderCore o' = orderCore o.

(** A product that is saved keeps its id, and either keeps its reviews
    and their aggregates or gets one review, of a user that had none, and
    the aggregates that go with it. *)
Definition productStep (p p' : Product.t) : Prop :=
  Product._id p' = Product._id p ∧
  ((Product.reviews p' = Product.reviews p ∧
    Product.rating p' = Product.rating p ∧
    Product.numReviews p' = Product.numReviews p) ∨
   (∃ r, Product.reviews p' = Product.reviews p ++ [r] ∧
         (∀ x, x ∈ Product.reviews p -> Review.user x ≠ Review.user r) ∧
         aggregated p')).

(** A product that is created has no review. *)
Definition productNew (c : list Product.t) (p' : Product.t) : Prop :=
  Product.reviews p' = [].

(** A user that is saved keeps its id and its admin flag, keeps its email
    unless the route assigns it, and either keeps the products of its cart
    in their order or gets one added with [addToCart]. *)
Definition userStep (req : AnyRequest) (u u' : User.t) : Prop :=
  User._id u' = User._id u ∧
  User.isAdmin u' = User.isAdmin u ∧
  (assignsEmail req = false -> User.email u' = User.email u) ∧
  (CartItem.product <$> User.cart u' = CartItem.product <$> User.cart u ∨
   ∃ pid q, User.cart u' = UserRoutes.addToCart pid q (User.cart u)).

(** A user that is created is no administrator, has an empty cart and an
    email that no user had. *)
Definition userNew (c : list User.t) (u' : User.t) : Prop :=
  User.isAdmin u' = false ∧ User.cart u' = [] ∧
  ∀ u, u ∈ c -> User.email u ≠ User.email u'.

(** The ids of the administrators. *)
Definition admins (db : Db) : list Id :=
  User._id <$> List.filter User.isAdmin (users db).

(** * Properties *)

(** ** Collections *)

Section CollectionFacts.
Context {D : Type} (key : D -> Id).

Lemma findById_Some id (c : list D) i d :
  findById key id c = Some (i, d) ->
  c !! i = Some d ∧ key d = id ∧ ∀ j y, c !! j = Some y -> (j < i)%nat -> key y ≠ id.
Proof. unfold findById. by rewrite list_find_Some. Qed.

(** Saving a document under its own [_id] leaves it where it was found. *)
Lemma findById_save id (c : list D) i d d' :
  findById key id c = Some (i, d) ->
  key d' = key d ->
  findById key id (save i d' c) = Some (i, d').
Proof.
  intros (Hi & Hk & Hfirst)%findById_Some Hsame.
  unfold findById, save. apply list_find_Some. split_and!.
  - apply list_lookup_insert_eq. by eapply lookup_lt_Some.
  - congruence.
  - intros j y Hj Hlt. rewrite list_lookup_insert_ne in Hj by lia. eauto.
Qed.

Lemma save_other (c : list D) i j d :
  i ≠ j -> save i d c !! j = c !! j.
Proof. intros. unfold save. by apply list_lookup_insert_ne. Qed.

End CollectionFacts.

Lemma run_protected P {I} (h : Env -> AuthUser -> I -> Db -> Db * Response)
    e token u i db :
  protect P token db = Some u ->
  run P (Protected h) e token i db = h e u i db.
Proof. intros H. simpl. by rewrite H. Qed.

(** ** Orders *)

Module OrderFacts.
Import OrderRoutes.

Example put_cancel_unpaid :
  run demoPlatform put_id_cancel demoEnv (Some "u1") "o3" demoDb
  = (mkDb [alice; bob] [cream; honey]
       [demoOrder "o1" false; demoOrder "o2" true;
        Order.set_cancelledAt (Some 1000%Z) (Order.set_isCancelled true (demoOrder "o3" false))],
     mkResponse 200
       (OrderDoc (Order.set_cancelledAt (Some 1000%Z)
                    (Order.set_isCancelled true (demoOrder "o3" false))))).
Proof. reflexivity. Qed.

Example put_cancel_paid :
  run demoPlatform put_id_cancel demoEnv (Some "u1") "o2" demoDb
  = (demoDb, mkResponse 400 (Message "Cannot cancel a paid order")).
Proof. reflexivity. Qed.

(** C1: [PUT /orders/:id/cancel], sent by an authenticated user for an
    order that exists, answers 400 and changes nothing when the order is
    paid; otherwise it answers 200 with the order, on which it has set
    [isCancelled] and put the current time in [cancelledAt], every other
    field, every other order and the other collections being as before. *)
Theorem put_cancel_paid_400_unpaid_cancelled P e token u id db i o :
  protect P token db = Some u ->
  findById Order._id id (orders db) = Some (i, o) ->
  let (db', r) := run P put_id_cancel e token id db in
  if Order.isPaid o then
    status r = 400%nat ∧ body r = Message "Cannot cancel a paid order" ∧ db' = db
  else
    status r = 200%nat ∧
    ∃ o', findById Order._id id (orders db') = Some (i, o') ∧
          body r = OrderDoc o' ∧
          Order.isCancelled o' = true ∧
          Order.cancelledAt o' = Some (now e) ∧
          o' = Order.set_cancelledAt (Some (now e)) (Order.set_isCancelled true o) ∧
          (∀ j, j ≠ i -> orders db' !! j = orders db !! j) ∧
          users db' = users db ∧ products db' = products db.
Proof.
  intros Hauth Hfind. unfold put_id_cancel.
  rewrite (run_protected _ _ _ _ _ _ _ Hauth), Hfind.
  destruct (Order.isPaid o) eqn:Hpaid; [done|].
  split; [done|]. eexists. split_and!; try reflexivity.
  - simpl. eapply findById_save; [exact Hfind | reflexivity].
  - intros j Hj. simpl. by apply save_other.
Qed.

Lemma put_cancel_witness :
  let (db', r) := run demoPlatform put_id_cancel demoEnv (Some "u1") "o2" demoDb in
  status r = 400%nat ∧ body r = Message "Cannot cancel a paid order" ∧ db' = demoDb.
Proof.
  apply (put_cancel_paid_400_unpaid_cancelled demoPlatform demoEnv (Some "u1")
           (authUser alice) "o2" demoDb 1 (demoOrder "o2" true));
    reflexivity.
Defined.

Example get_cancel_paid_no_token :
  run demoPlatform get_orders_id_cancel demoEnv None "o2" demoDb
  = (mkDb [alice; bob] [cream; honey]
       [demoOrder "o1" false; Order.set_status (Some "Cancelled") (demoOrder "o2" true);
        demoOrder "o3" false],
     mkResponse 200 (OrderDoc (Order.set_status (Some "Cancelled") (demoOrder "o2" true)))).
Proof. reflexivity. Qed.

Example put_cancel_no_token :
  run demoPlatform put_id_cancel demoEnv None "o2" demoDb
  = (demoDb, mkResponse 401 (Message "Not authorized, no token")).
Proof. reflexivity. Qed.

(** C9: [GET /orders/:id/cancel] is registered without [protect] and does
    not look at [isPaid].  For an order that exists, paid or not, a request
    without a bearer token answers 200 with the order, whose [status] it
    has set to ['Cancelled'], all other fields being as before; the same
    request sent to [PUT /:id/cancel] stops at the gate with 401, and an
    authenticated one for a paid order stops with 400. *)
Theorem get_cancel_needs_no_token_and_ignores_paid P e id db i o :
  findById Order._id id (orders db) = Some (i, o) ->
  let (db', r) := run P get_orders_id_cancel e None id db in
  (status r = 200%nat ∧
   ∃ o', findById Order._id id (orders db') = Some (i, o') ∧
         body r = OrderDoc o' ∧
         Order.status o' = Some "Cancelled" ∧
         o' = Order.set_status (Some "Cancelled") o ∧
         Order.isPaid o' = Order.isPaid o) ∧
  status (run P put_id_cancel e None id db).2 = 401%nat ∧
  (∀ token u, protect P token db = Some u -> Order.isPaid o = true ->
     status (run P put_id_cancel e token id db).2 = 400%nat).
Proof.
  intros Hfind. unfold get_orders_id_cancel. simpl. rewrite Hfind.
  split_and!; [done | | done |].
  - eexists. split_and!; try reflexivity.
    simpl. eapply findById_save; [exact Hfind | reflexivity].
  - intros token u Hauth Hpaid. rewrite Hauth, Hpaid. done.
Qed.

Lemma get_cancel_witness :
  let (db', r) := run demoPlatform get_orders_id_cancel demoEnv None "o2" demoDb in
  (status r = 200%nat ∧
   ∃ o', findById Order._id "o2" (orders db') = Some (1%nat, o') ∧
         body r = OrderDoc o' ∧
         Order.status o' = Some "Cancelled" ∧
         o' = Order.set_status (Some "Cancelled") (demoOrder "o2" true) ∧
         Order.isPaid o' = true) ∧
  status (run demoPlatform put_id_cancel demoEnv None "o2" demoDb).2 = 401%nat ∧
  (∀ token u, protect demoPlatform token demoDb = Some u ->
     Order.isPaid (demoOrder "o2" true) = true ->
     status (run demoPlatform put_id_cancel demoEnv token "o2" demoDb).2 = 400%nat).
Proof.
  apply (get_cancel_needs_no_token_and_ignores_paid demoPlatform demoEnv
           "o2" demoDb 1 (demoOrder "o2" true)).
  reflexivity.
Defined.

Example post_order_empty :
  run demoPlatform post_orders demoEnv (Some "u2") (demoBody (Some [])) demoDb
  = (demoDb, mkResponse 400 (Message "No order items")).
Proof. reflexivity. Qed.

Example post_order_absent :
  run demoPlatform post_orders demoEnv (Some "u2") (demoBody None) demoDb
  = (set_orders (orders demoDb ++ [newOrder "o4" "u2" (demoBody None)]) demoDb,
     mkResponse 201 (OrderDoc (newOrder "o4" "u2" (demoBody None)))).
Proof. reflexivity. Qed.

(** C4: [POST /orders] sent by an authenticated user with an item list.
    When the list is empty the answer is 400 and the database is as
    before; when it is not, one order is added to the collection, owned by
    the authenticated user and holding the items, and the answer is 201
    with that order. *)
Theorem post_order_empty_400_nonempty_201 P e token u b items db :
  protect P token db = Some u ->
  orderItems b = Some items ->
  let (db', r) := run P post_orders e token b db in
  match items with
  | [] => status r = 400%nat ∧ body r = Message "No order items" ∧ db' = db
  | _ :: _ =>
      status r = 201%nat ∧
      ∃ o, orders db' = orders db ++ [o] ∧
           body r = OrderDoc o ∧
           Order.user o = au_id u ∧
           Order.orderItems o = items ∧
           users db' = users db ∧ products db' = products db
  end.
Proof.
  intros Hauth Hitems. unfold post_orders.
  rewrite (run_protected _ _ _ _ _ _ _ Hauth), Hitems.
  destruct items as [|it items]; simpl; [done|].
  split; [done|]. eexists. split_and!; try reflexivity.
  simpl. by rewrite Hitems.
Qed.

Lemma post_order_witness :
  let (db', r) :=
    run demoPlatform post_orders demoEnv (Some "u2") (demoBody (Some [OrderItem.mk "p3" 2])) demoDb in
  status r = 201%nat ∧
  ∃ o, orders db' = orders demoDb ++ [o] ∧
       body r = OrderDoc o ∧
       Order.user o = "u2" ∧
       Order.orderItems o = [OrderItem.mk "p3" 2] ∧
       users db' = users demoDb ∧ products db' = products demoDb.
Proof.
  apply (post_order_empty_400_nonempty_201 demoPlatform demoEnv (Some "u2")
           (authUser bob) (demoBody (Some [OrderItem.mk "p3" 2]))
           [OrderItem.mk "p3" 2] demoDb);
    reflexivity.
Defined.

(** C10: [POST /orders] sent by an authenticated user with a body that has
    no [orderItems] field is not rejected: the guard
    [orderItems && orderItems.length === 0] is false for [undefined], so
    one order is added, owned by the authenticated user and with no items,
    and the answer is 201 with that order. *)
Theorem post_order_without_items_field_201 P e token u b db :
  protect P token db = Some u ->
  orderItems b = None ->
  let (db', r) := run P post_orders e token b db in
  status r ≠ 400%nat ∧
  status r = 201%nat ∧
  ∃ o, orders db' = orders db ++ [o] ∧
       body r = OrderDoc o ∧
       Order.user o = au_id u ∧
       Order.orderItems o = [] ∧
       users db' = users db ∧ products db' = products db.
Proof.
  intros Hauth Hitems. unfold post_orders.
  rewrite (run_protected _ _ _ _ _ _ _ Hauth), Hitems. simpl.
  split_and!; [done..|]. eexists. split_and!; try reflexivity.
  simpl. by rewrite Hitems.
Qed.

Lemma post_order_without_items_witness :
  let (db', r) := run demoPlatform post_orders demoEnv (Some "u2") (demoBody None) demoDb in
  status r ≠ 400%nat ∧
  status r = 201%nat ∧
  ∃ o, orders db' = orders demoDb ++ [o] ∧
       body r = OrderDoc o ∧
       Order.user o = "u2" ∧
       Order.orderItems o = [] ∧
       users db' = users demoDb ∧ products db' = products demoDb.
Proof.
  apply (post_order_without_items_field_201 demoPlatform demoEnv (Some "u2")
           (authUser bob) (demoBody None) demoDb);
    reflexivity.
Defined.

End OrderFacts.

(** ** Users *)

Module UserFacts.
Import UserRoutes.

Lemma findOne_Some {D} (F : D -> Prop) `{!∀ d, Decision (F d)} (c : list D) i d :
  findOne F c = Some (i, d) ->
  c !! i = Some d ∧ F d ∧ ∀ j y, c !! j = Some y -> (j < i)%nat -> ¬ F y.
Proof. unfold findOne. by rewrite list_find_Some. Qed.

Lemma findOne_is_Some {D} (F : D -> Prop) `{!∀ d, Decision (F d)} (c : list D) :
  (∃ d, d ∈ c ∧ F d) -> is_Some (findOne F c).
Proof. intros (d & Hin & HF). unfold findOne. by apply (list_find_elem_of F c d). Qed.

Example login_ok :
  run demoPlatform (post_login demoPlatform) demoEnv None
    (mkLoginBody "alice@x.com" "secret") demoDb
  = (demoDb,
     mkResponse 200
       (SessionDoc (mkSession "u1" "Alice" "alice@x.com" false "jwt:u1" (Some 10%Z)))).
Proof. reflexivity. Qed.

Example login_unknown_email :
  run demoPlatform (post_login demoPlatform) demoEnv None
    (mkLoginBody "carol@x.com" "secret") demoDb
  = (demoDb, mkResponse 401 (Message "Invalid Email or Password")).
Proof. reflexivity. Qed.

Example login_wrong_password :
  run demoPlatform (post_login demoPlatform) demoEnv None
    (mkLoginBody "alice@x.com" "guess") demoDb
  = (demoDb, mkResponse 401 (Message "Invalid Email or Password")).
Proof. reflexivity. Qed.

(** C7: two failing logins, one with an email that no user has and one
    with the email of a user whose stored hash does not match the
    password, get the same answer, 401 with the message
    ["Invalid Email or Password"], and leave the database as it was;
    whatever the time, the bearer token and the database of each. *)
Theorem login_failures_same_response P e1 e2 token1 token2 b1 b2 db1 db2 i u :
  findOne (λ u, User.email u = l_email b1) (users db1) = None ->
  findOne (λ u, User.email u = l_email b2) (users db2) = Some (i, u) ->
  matchPassword P (l_password b2) (User.password u) = false ->
  run P (post_login P) e1 token1 b1 db1
    = (db1, mkResponse 401 (Message "Invalid Email or Password")) ∧
  run P (post_login P) e2 token2 b2 db2
    = (db2, mkResponse 401 (Message "Invalid Email or Password")) ∧
  (run P (post_login P) e1 token1 b1 db1).2 = (run P (post_login P) e2 token2 b2 db2).2.
Proof.
  intros Hnone Hsome Hpw. simpl. rewrite Hnone, Hsome, Hpw. done.
Qed.

Lemma login_failures_witness :
  (run demoPlatform (post_login demoPlatform) demoEnv None
     (mkLoginBody "carol@x.com" "secret") demoDb).2
  = (run demoPlatform (post_login demoPlatform) demoEnv None
       (mkLoginBody "alice@x.com" "guess") demoDb).2.
Proof.
  apply (login_failures_same_response demoPlatform demoEnv demoEnv None None
           (mkLoginBody "carol@x.com" "secret") (mkLoginBody "alice@x.com" "guess")
           demoDb demoDb 0 alice);
    reflexivity.
Defined.

Example register_new :
  run demoPlatform (post_users demoPlatform) (mkEnv 1000 "u3") None
    (mkRegisterBody "A" "a@x.com" "p") demoDb
  = (set_users
       [alice; bob; User.mk "u3" "A" "a@x.com" "#p" false 1000 None None None None [] [] []]
       demoDb,
     mkResponse 201 (SessionDoc (mkSession "u3" "A" "a@x.com" false "jwt:u3" None))).
Proof. reflexivity. Qed.

Example register_again :
  let db := (run demoPlatform (post_users demoPlatform) (mkEnv 1000 "u3") None
               (mkRegisterBody "A" "a@x.com" "p") demoDb).1 in
  run demoPlatform (post_users demoPlatform) (mkEnv 1001 "u4") None
    (mkRegisterBody "A" "a@x.com" "p") db
  = (db, mkResponse 400 (Message "User already exists")).
Proof. reflexivity. Qed.

(** C6: [POST /users].  When some user has the email of the request the
    answer is 400 with the message ["User already exists"] and the
    database is as before.  When no user has it, one user is added to the
    collection, with the name and email of the request and the hashed
    password, and the answer is 201 with that user's id, name and email and
    the token generated for that id. *)
Theorem register_taken_400_free_201 P e token b db :
  let (db', r) := run P (post_users P) e token b db in
  ((∃ u, u ∈ users db ∧ User.email u = r_email b) ->
     status r = 400%nat ∧ body r = Message "User already exists" ∧ db' = db) ∧
  ((∀ u, u ∈ users db -> User.email u ≠ r_email b) ->
     status r = 201%nat ∧
     ∃ u, users db' = users db ++ [u] ∧
          User.name u = r_name b ∧
          User.email u = r_email b ∧
          User.password u = hashPassword P (r_password b) ∧
          body r = SessionDoc
                     (mkSession (User._id u) (r_name b) (r_email b) false
                        (generateToken P (User._id u)) None) ∧
          products db' = products db ∧ orders db' = orders db).
Proof.
  simpl. destruct (findOne _ (users db)) as [[i u0]|] eqn:Hfind; split.
  - done.
  - intros Hfree. apply findOne_Some in Hfind as (Hi & Hmail & _).
    exfalso. eapply Hfree; [|exact Hmail]. by eapply list_elem_of_lookup_2.
  - intros Hex. apply (findOne_is_Some _ (users db)) in Hex.
    rewrite Hfind in Hex. by destruct Hex.
  - intros _. split; [done|]. eexists. split_and!; reflexivity.
Qed.

Lemma register_witness :
  let (db', r) := run demoPlatform (post_users demoPlatform) (mkEnv 1000 "u3") None
                    (mkRegisterBody "A" "a@x.com" "p") demoDb in
  status r = 201%nat ∧
  ∃ u, users db' = users demoDb ++ [u] ∧
       User.name u = "A" ∧
       User.email u = "a@x.com" ∧
       User.password u = "#p" ∧
       body r = SessionDoc (mkSession (User._id u) "A" "a@x.com" false
                              (String.append "jwt:" (User._id u)) None) ∧
       products db' = products demoDb ∧ orders db' = orders demoDb.
Proof.
  apply (register_taken_400_free_201 demoPlatform (mkEnv 1000 "u3") None
           (mkRegisterBody "A" "a@x.com" "p") demoDb).
  intros u Hu. simpl in Hu.
  apply elem_of_cons in Hu as [->|Hu]; [discriminate|].
  apply elem_of_cons in Hu as [->|Hu]; [discriminate|].
  by apply elem_of_nil in Hu.
Defined.

(** What [PUT /users/reset-password/:token] does: the only test is whether
    some user holds the token. *)
Lemma reset_password_cases P e token b db :
  let (db', r) := run P (put_reset_password_token P) e token b db in
  match findOne (λ u, User.passwordResetToken u = Some (p_token b)) (users db) with
  | None => status r = 400%nat ∧ body r = Message "Invalid or expired token" ∧ db' = db
  | Some (i, u) =>
      status r = 200%nat ∧
      ∃ u', users db' = <[i := u']> (users db) ∧
            User.password u' = hashPassword P (p_password b) ∧
            User.passwordResetToken u' = None ∧
            User.passwordResetExpires u' = None
  end.
Proof.
  simpl. destruct (findOne _ (users db)) as [[i u]|]; [|done].
  split; [done|]. eexists. split_and!; reflexivity.
Qed.

(** C8: the handler never reads [passwordResetExpires] and never reads the
    clock.  In the example database Bob holds the token ["reset-1"], which
    ran out at time 100; at every later time the request is answered 200
    and Bob's password is replaced, where the claim asks for 400 and no
    change. *)
Theorem reset_password_accepts_expired_token (e : Env) :
  User.passwordResetToken bob = Some "reset-1" ∧
  User.passwordResetExpires bob = Some 100%Z ∧
  run demoPlatform (put_reset_password_token demoPlatform) e None
    (mkResetInput "reset-1" "new") demoDb
  = (set_users
       [alice;
        User.mk "u2" "Bob" "bob@x.com" "#new" false 20 None None None None
          [CartItem.mk "p1" 2; CartItem.mk "p2" 1] [] []]
       demoDb,
     mkResponse 200 (Message "Password reset successful")).
Proof. split_and!; reflexivity. Qed.

Example cart_add_existing :
  addToCart "p1" 3 [CartItem.mk "p1" 2; CartItem.mk "p2" 1]
  = [CartItem.mk "p1" 5; CartItem.mk "p2" 1].
Proof. reflexivity. Qed.

(** [+=] on doubles: 0.1 + 0.2 is 0.30000000000000004, and 2^53 added to
    1 is 2^53. *)
Example cart_add_tenths :
  addToCart "p1" 0x1.999999999999ap-3 [CartItem.mk "p1" 0x1.999999999999ap-4]
  = [CartItem.mk "p1" 0x1.3333333333334p-2].
Proof. reflexivity. Qed.

Example cart_add_rounds :
  addToCart "p1" 9007199254740992 [CartItem.mk "p1" 1]
  = [CartItem.mk "p1" 9007199254740992].
Proof. reflexivity. Qed.

Example cart_add_new :
  addToCart "p3" 3 [CartItem.mk "p1" 2; CartItem.mk "p2" 1]
  = [CartItem.mk "p1" 2; CartItem.mk "p2" 1; CartItem.mk "p3" 3].
Proof. reflexivity. Qed.

Lemma addToCart_existing productId quantity (cart : list CartItem.t) :
  (∃ item, item ∈ cart ∧ CartItem.product item = productId) ->
  ∃ k item,
    cart !! k = Some item ∧ CartItem.product item = productId ∧
    (∀ j y, cart !! j = Some y -> (j < k)%nat -> CartItem.product y ≠ productId) ∧
    addToCart productId quantity cart
      = <[k := CartItem.mk productId (CartItem.quantity item + quantity)%float]> cart.
Proof.
  intros (it & Hin & Hit). unfold addToCart.
  destruct (list_find_elem_of (λ item, CartItem.product item = productId) cart it Hin Hit)
    as [[k item] Hfind].
  rewrite Hfind. apply list_find_Some in Hfind as (Hk & Hp & Hfirst).
  exists k, item. split_and!; try done.
  unfold CartItem.set_quantity. by rewrite Hp.
Qed.

Lemma addToCart_new productId quantity (cart : list CartItem.t) :
  (∀ item, item ∈ cart -> CartItem.product item ≠ productId) ->
  addToCart productId quantity cart = cart ++ [CartItem.mk productId quantity].
Proof.
  intros Hnone. unfold addToCart.
  destruct (list_find _ cart) as [[k item]|] eqn:Hfind; [|done].
  apply list_find_Some in Hfind as (Hk & Hp & _).
  exfalso. eapply Hnone; [|exact Hp]. by eapply list_elem_of_lookup_2.
Qed.

(** Adding to a cart keeps the product references pairwise different. *)
Lemma addToCart_NoDup productId quantity (cart : list CartItem.t) :
  NoDup (CartItem.product <$> cart) ->
  NoDup (CartItem.product <$> addToCart productId quantity cart).
Proof.
  intros Hnd. unfold addToCart.
  destruct (list_find _ cart) as [[k item]|] eqn:Hfind.
  - apply list_find_Some in Hfind as (Hk & Hp & _).
    rewrite list_fmap_insert. simpl.
    rewrite list_insert_id; [done|]. by rewrite list_lookup_fmap, Hk.
  - apply list_find_None in Hfind.
    rewrite fmap_app. apply NoDup_app. split_and!; [done| |apply NoDup_singleton].
    intros x Hx ->%list_elem_of_singleton.
    apply list_elem_of_fmap in Hx as (it & Heq & Hin).
    rewrite Forall_forall in Hfind. by eapply Hfind.
Qed.

Example cart_post_existing :
  run demoPlatform post_users_id_cart demoEnv None (mkCartInput "u2" "p2" 4) demoDb
  = (set_users
       [alice; User.set_cart [CartItem.mk "p1" 2; CartItem.mk "p2" 5] bob] demoDb,
     mkResponse 200 (Message "Product added to cart")).
Proof. reflexivity. Qed.

End UserFacts.

(** ** Products *)

Module ProductFacts.
Import ProductRoutes.






(** The mean of doubles is rounded: the ratings 5, 4 and 4 have the mean
    4.333333333333333, the double next to 13/3, and the ratings 0.1, 0.2
    and 0.3 have the mean 0.20000000000000004. *)
Example mean_5_4_4 : mean [5; 4; 4]%float = 0x1.1555555555555p+2%float.
Proof. reflexivity. Qed.

Example mean_tenths :
  mean [0x1.999999999999ap-4; 0x1.999999999999ap-3; 0x1.3333333333333p-2]%float
  = 0x1.999999999999bp-3%float.
Proof. reflexivity. Qed.



Example two_reviews_run :
  submitReviews demoPlatform demoEnv twoReviews demoDb
  = (set_products
       [Product.mk "p1" "Honest Hydrogel Cream" "/images/6.png" "face cream" 89 60
          3.5 2
          [Review.mk "Alice" 5 "great" "u1"; Review.mk "Bob" 2 "so-so" "u2"];
        honey]
       demoDb,
     [mkResponse 201 (Message "Reviewed Added"); mkResponse 201 (Message "Reviewed Added")]).
Proof. reflexivity. Qed.



Example review_again :
  run demoPlatform post_id_review demoEnv (Some "u1") (mkReviewInput "p2" 1 "bad") demoDb
  = (demoDb, mkResponse 400 (Message "Product already Reviewed")).
Proof. reflexivity. Qed.

Lemma review_keeps_oneReviewPerUser P e token b db :
  oneReviewPerUser db ->
  oneReviewPerUser (run P post_id_review e token b db).1.
Proof.
  intros Hinv. simpl.
  destruct (protect P token db) as [u|]; [|done].
  destruct (findById _ _ (products db)) as [[i p]|] eqn:Hfind; [|done].
  destruct (list_find _ (Product.reviews p)) as [[k r0]|] eqn:Hrev; [done|].
  unfold oneReviewPerUser, save in *. simpl.
  apply Forall_insert; [done|]. simpl.
  apply findById_Some in Hfind as (Hi & _ & _).
  rewrite Forall_forall in Hinv.
  specialize (Hinv p (list_elem_of_lookup_2 _ _ _ Hi)).
  rewrite fmap_app. apply NoDup_app. split_and!; [done| |apply NoDup_singleton].
  intros x Hx ->%list_elem_of_singleton.
  apply list_elem_of_fmap in Hx as (r & Heq & Hin).
  apply list_find_None in Hrev. rewrite Forall_forall in Hrev.
  by eapply Hrev.
Qed.

End ProductFacts.

(** ** Invariants of the review lists and of the carts *)

Module InvariantFacts.
Import UserRoutes ProductRoutes UserFacts ProductFacts.

Lemma serve_keeps_oneReviewPerUser P e token req db :
  oneReviewPerUser db ->
  oneReviewPerUser (serve P e token req db).1.
Proof.
  intros Hinv. destruct req; try (simpl; repeat case_match; done).
  by apply review_keeps_oneReviewPerUser.
Qed.

Lemma serve_keeps_oneItemPerProduct P e token req db :
  oneItemPerProduct db ->
  oneItemPerProduct (serve P e token req db).1.
Proof.
  intros Hinv. unfold oneItemPerProduct in *.
  destruct req; try (simpl; repeat case_match; done); simpl.
  - destruct (findOne _ (users db)); [done|]. simpl.
    apply Forall_app. split; [done|]. repeat constructor.
  - destruct (findOne _ (users db)) as [[i u]|] eqn:Hfind; [|done]. simpl.
    apply Forall_insert; [done|]. simpl.
    apply findOne_Some in Hfind as (Hi & _ & _).
    by apply (Forall_lookup_1 _ _ _ _ Hinv Hi).
  - destruct (findById _ _ (users db)) as [[i u]|] eqn:Hfind; [|done]. simpl.
    apply Forall_insert; [done|]. simpl.
    apply findById_Some in Hfind as (Hi & _ & _).
    apply addToCart_NoDup. by apply (Forall_lookup_1 _ _ _ _ Hinv Hi).
Qed.

(** What every request keeps, every run of requests keeps. *)
Lemma serveAll_keeps (Inv : Db -> Prop) P :
  (∀ e token req db, Inv db -> Inv (serve P e token req db).1) ->
  ∀ reqs db, Inv db -> Inv (serveAll P reqs db).1.
Proof.
  intros Hstep reqs.
  induction reqs as [|[[e token] req] reqs IH]; intros db Hinv; [done|].
  cbn [serveAll].
  specialize (Hstep e token req db Hinv).
  destruct (serve P e token req db) as [db1 r].
  specialize (IH db1 Hstep).
  by destruct (serveAll P reqs db1) as [db2 rs].
Qed.

(** C5: [POST /users/:id/cart] for a user that exists answers 200 and
    stores the user with a new cart, all else being as before.  When the
    cart has an item with the product of the request, the first such item
    gets its quantity raised by the requested quantity and the cart keeps
    its length and every other item; when it has none, the new cart is the
    old one followed by one item with the product and the quantity of the
    request.  The quantities are JavaScript numbers and [+=] adds them as
    doubles.  A cart that holds every product at most once still does so
    afterwards, and if no cart of the database holds a product twice, then
    none does after any run of requests to the routes of this
    development. *)
Theorem cart_add_merges_by_product P e token b db i u :
  findById User._id (c_id b) (users db) = Some (i, u) ->
  let (db', r) := run P post_users_id_cart e token b db in
  status r = 200%nat ∧
  ∃ u', findById User._id (c_id b) (users db') = Some (i, u') ∧
        u' = User.set_cart (User.cart u') u ∧
        (∀ j, j ≠ i -> users db' !! j = users db !! j) ∧
        products db' = products db ∧ orders db' = orders db ∧
        ((∃ item, item ∈ User.cart u ∧ CartItem.product item = c_productId b) ->
           ∃ k item,
             User.cart u !! k = Some item ∧
             CartItem.product item = c_productId b ∧
             User.cart u'
               = <[k := CartItem.mk (c_productId b)
                          (CartItem.quantity item + c_quantity b)%float]>
                   (User.cart u) ∧
             length (User.cart u') = length (User.cart u)) ∧
        ((∀ item, item ∈ User.cart u -> CartItem.product item ≠ c_productId b) ->
           User.cart u' = User.cart u ++ [CartItem.mk (c_productId b) (c_quantity b)]) ∧
        (NoDup (CartItem.product <$> User.cart u) ->
           NoDup (CartItem.product <$> User.cart u')) ∧
        (∀ reqs db0, oneItemPerProduct db0 -> oneItemPerProduct (serveAll P reqs db0).1).
Proof.
  intros Hfind. simpl. rewrite Hfind. split; [done|].
  eexists. split_and!.
  - simpl. eapply findById_save; [exact Hfind | reflexivity].
  - reflexivity.
  - intros j Hj. simpl. by apply save_other.
  - reflexivity.
  - reflexivity.
  - intros Hex. simpl.
    destruct (addToCart_existing _ (c_quantity b) _ Hex) as (k & item & Hk & Hp & _ & ->).
    exists k, item. split_and!; try done. apply length_insert.
  - intros Hnone. simpl. by apply addToCart_new.
  - intros Hnd. simpl. by apply addToCart_NoDup.
  - apply serveAll_keeps. intros. by apply serve_keeps_oneItemPerProduct.
Qed.

Lemma cart_add_witness :
  let (db', r) :=
    run demoPlatform post_users_id_cart demoEnv None (mkCartInput "u2" "p2" 4) demoDb in
  status r = 200%nat ∧
  ∃ u', findById User._id "u2" (users db') = Some (1%nat, u') ∧
        NoDup (CartItem.product <$> User.cart u').
Proof.
  pose proof (cart_add_merges_by_product demoPlatform demoEnv None
                (mkCartInput "u2" "p2" 4) demoDb 1 bob eq_refl) as H.
  simpl in H. destruct H as (Hs & u' & Hf & _ & _ & _ & _ & _ & _ & Hnd & _).
  split; [exact Hs|]. exists u'. split; [exact Hf|].
  apply Hnd. simpl. apply (bool_decide_unpack _). vm_compute. exact I.
Defined.

(** C3: when the product has a review whose [user] is the id of the
    authenticated user, [POST /products/:id/review] answers 400 with the
    message ["Product already Reviewed"] and the database, and with it the
    product's review list, [rating] and [numReviews], is as before.  If no
    product has two reviews of one user, then no product has after any run
    of requests to the routes of this development. *)
Theorem second_review_rejected_one_per_user P e token u b db i p :
  protect P token db = Some u ->
  findById Product._id (v_id b) (products db) = Some (i, p) ->
  (∃ r, r ∈ Product.reviews p ∧ Review.user r = au_id u) ->
  run P post_id_review e token b db
    = (db, mkResponse 400 (Message "Product already Reviewed")) ∧
  (∀ reqs db0, oneReviewPerUser db0 -> oneReviewPerUser (serveAll P reqs db0).1).
Proof.
  intros Hauth Hfind (r & Hin & Hr). split.
  - simpl. rewrite Hauth, Hfind.
    destruct (list_find_elem_of (λ r, Review.user r = au_id u) (Product.reviews p) r Hin Hr)
      as [[k r0] ->].
    done.
  - apply serveAll_keeps. intros. by apply serve_keeps_oneReviewPerUser.
Qed.

Lemma second_review_witness :
  run demoPlatform post_id_review demoEnv (Some "u1") (mkReviewInput "p2" 1 "bad") demoDb
  = (demoDb, mkResponse 400 (Message "Product already Reviewed")).
Proof.
  apply (second_review_rejected_one_per_user demoPlatform demoEnv (Some "u1")
           (authUser alice) (mkReviewInput "p2" 1 "bad") demoDb 1 honey eq_refl eq_refl).
  exists (Review.mk "Alice" 5 "good" "u1"). split; [|reflexivity].
  apply list_elem_of_here.
Defined.

End InvariantFacts.

(** * Properties of the other routes *)

(** ** Collections, continued *)

Section MoreCollectionFacts.
Context {D : Type} (key : D -> Id).

(** Where a document is found depends on the [_id]s alone. *)
Lemma findById_index id (c : list D) :
  fst <$> findById key id c = fst <$> list_find (λ k, k = id) (key <$> c).
Proof.
  unfold findById. rewrite list_find_fmap.
  change ((λ k, k = id) ∘ key) with (λ d, key d = id).
  by destruct (list_find _ c) as [[j d]|].
Qed.

Lemma findById_same_keys_Some id (c c' : list D) j d :
  key <$> c' = key <$> c ->
  findById key id c = Some (j, d) ->
  ∃ d', findById key id c' = Some (j, d') ∧ c' !! j = Some d'.
Proof.
  intros Hkeys Hfind.
  pose proof (findById_index id c') as Hi. rewrite Hkeys, <- findById_index, Hfind in Hi.
  destruct (findById key id c') as [[j' d']|] eqn:Hfind'; [|done].
  simpl in Hi. injection Hi as ->. exists d'. split; [done|].
  by apply findById_Some in Hfind' as (? & _).
Qed.

Lemma findById_same_keys_None id (c c' : list D) :
  key <$> c' = key <$> c ->
  findById key id c = None ->
  findById key id c' = None.
Proof.
  intros Hkeys Hfind.
  pose proof (findById_index id c') as Hi. rewrite Hkeys, <- findById_index, Hfind in Hi.
  by destruct (findById key id c').
Qed.

(** Saving a document with a part [f] of it unchanged leaves that part of
    the collection unchanged. *)
Lemma fmap_save {B} (f : D -> B) (c : list D) i d d' :
  c !! i = Some d ->
  f d' = f d ->
  f <$> save i d' c = f <$> c.
Proof.
  intros Hi Hf. unfold save. rewrite list_fmap_insert, Hf.
  apply list_insert_id. by rewrite list_lookup_fmap, Hi.
Qed.

(** A document that is not in the collection is found at the end once it
    has been created. *)
Lemma findById_create (c : list D) d :
  findById key (key d) c = None ->
  findById key (key d) (create d c) = Some (length c, d).
Proof.
  intros Hnone. unfold findById, create in *.
  rewrite list_find_app_r by done. simpl.
  by rewrite decide_True by done.
Qed.

Lemma removeAt_create (c : list D) d : removeAt (length c) (create d c) = c.
Proof.
  unfold removeAt, create.
  rewrite <- (app_nil_r (c ++ [d])), <- app_assoc. simpl.
  rewrite delete_middle. apply app_nil_r.
Qed.

(** With pairwise different [_id]s, removing the document found for an
    [_id] leaves none with that [_id], and all the others. *)
Lemma removeAt_found id (c : list D) i d :
  NoDup (key <$> c) ->
  findById key id c = Some (i, d) ->
  findById key id (removeAt i c) = None ∧
  ∀ x, x ∈ removeAt i c <-> x ∈ c ∧ key x ≠ id.
Proof.
  intros Hnd (Hi & Hk & _)%findById_Some.
  assert (Hsplit : c = take i c ++ d :: drop (S i) c)
    by (symmetry; by apply take_drop_middle).
  unfold removeAt. rewrite delete_take_drop.
  rewrite Hsplit, fmap_app, fmap_cons in Hnd.
  apply NoDup_app in Hnd as (_ & Hl & Hr).
  apply NoDup_cons in Hr as [Hr _].
  assert (Hout : ∀ x, x ∈ take i c ++ drop (S i) c -> key x ≠ id).
  { intros x [Hx|Hx]%elem_of_app Heq.
    - eapply (Hl (key x)); [by apply list_elem_of_fmap_2|].
      rewrite Heq, <- Hk. apply list_elem_of_here.
    - apply Hr. rewrite Hk, <- Heq. by apply list_elem_of_fmap_2. }
  split.
  - unfold findById. apply list_find_None, Forall_forall. exact Hout.
  - intros x. split.
    + intros Hx. split; [|by apply Hout].
      rewrite Hsplit. apply elem_of_app in Hx as [?|?];
        apply elem_of_app; [by left | right; by apply list_elem_of_further].
    + intros [Hx Hne]. rewrite Hsplit in Hx.
      apply elem_of_app in Hx as [?|Hx]; apply elem_of_app; [by left|].
      apply elem_of_cons in Hx as [->|?]; [done | by right].
Qed.

End MoreCollectionFacts.

(** [protect] looks at the users only. *)
Lemma protect_users P token db db' :
  users db' = users db -> protect P token db' = protect P token db.
Proof. intros H. unfold protect. by rewrite H. Qed.

(** ** The life of an order *)

Module OrderLifecycleFacts.
Import OrderRoutes OrderLifecycle OrderFields.

Lemma pay_found P e token u i db k o :
  protect P token db = Some u ->
  findById Order._id (y_id i) (orders db) = Some (k, o) ->
  run P put_id_pay e token i db
  = (set_orders (save k (paid e i o) (orders db)) db, json (OrderDoc (paid e i o))).
Proof. intros Hauth Hfind. simpl. by rewrite Hauth, Hfind. Qed.

Lemma cancel_found P e token u id db k o :
  protect P token db = Some u ->
  findById Order._id id (orders db) = Some (k, o) ->
  Order.isPaid o = false ->
  run P put_id_cancel e token id db
  = (set_orders
       (save k (Order.set_cancelledAt (Some (now e)) (Order.set_isCancelled true o))
          (orders db)) db,
     json (OrderDoc (Order.set_cancelledAt (Some (now e)) (Order.set_isCancelled true o)))).
Proof. intros Hauth Hfind Hpaid. simpl. by rewrite Hauth, Hfind, Hpaid. Qed.

Example pay_then_cancel :
  let db1 := (run demoPlatform put_id_pay demoEnv (Some "u1")
                (mkPayInput "o1" (PaymentResult.mk (Some "PAY-1") (Some "COMPLETED") None None))
                demoDb).1 in
  run demoPlatform put_id_cancel (mkEnv 2000 "x") (Some "u2") "o1" db1
  = (db1, mkResponse 400 (Message "Cannot cancel a paid order")).
Proof. reflexivity. Qed.

(** Once [PUT /:id/pay] has marked an order as paid, [PUT /:id/cancel] of
    that order is rejected with 400 and changes nothing, whoever the two
    authenticated users are. *)
Theorem cancel_after_pay_rejected P e1 e2 token1 token2 u1 u2 i db k o :
  protect P token1 db = Some u1 ->
  protect P token2 db = Some u2 ->
  findById Order._id (y_id i) (orders db) = Some (k, o) ->
  let (db1, r1) := run P put_id_pay e1 token1 i db in
  status r1 = 200%nat ∧
  run P put_id_cancel e2 token2 (y_id i) db1
  = (db1, mkResponse 400 (Message "Cannot cancel a paid order")).
Proof.
  intros Hauth1 Hauth2 Hfind.
  rewrite (pay_found _ _ _ _ _ _ _ _ Hauth1 Hfind). split; [done|].
  assert (Hfind1 : findById Order._id (y_id i) (save k (paid e1 i o) (orders db))
                   = Some (k, paid e1 i o))
    by (eapply findById_save; [exact Hfind | reflexivity]).
  unfold put_id_cancel.
  erewrite run_protected by (rewrite <- Hauth2; by apply protect_users).
  cbn [orders set_orders]. by rewrite Hfind1.
Qed.

Lemma cancel_after_pay_witness :
  let (db1, r1) :=
    run demoPlatform put_id_pay demoEnv (Some "u1")
      (mkPayInput "o1" (PaymentResult.mk (Some "PAY-1") (Some "COMPLETED") None None))
      demoDb in
  status r1 = 200%nat ∧
  run demoPlatform put_id_cancel (mkEnv 2000 "x") (Some "u2") "o1" db1
  = (db1, mkResponse 400 (Message "Cannot cancel a paid order")).
Proof.
  apply (cancel_after_pay_rejected demoPlatform demoEnv (mkEnv 2000 "x")
           (Some "u1") (Some "u2") (authUser alice) (authUser bob)
           (mkPayInput "o1" (PaymentResult.mk (Some "PAY-1") (Some "COMPLETED") None None))
           demoDb 0 (demoOrder "o1" false));
    reflexivity.
Defined.

(** [PUT /:id/unpaid] after [PUT /:id/pay] leaves of the payment nothing:
    the order is the one before the payment, with [isPaid] unset, no
    [paidAt] and no [paymentResult], except that its [status] is
    ["Unpaid"]; every other order is as before, and the order can be
    cancelled again. *)
Theorem unpaid_after_pay_undoes_payment P e1 e2 e3 token1 token2 token3 u1 u2 u3
    i db k o :
  protect P token1 db = Some u1 ->
  protect P token2 db = Some u2 ->
  protect P token3 db = Some u3 ->
  findById Order._id (y_id i) (orders db) = Some (k, o) ->
  let db1 := (run P put_id_pay e1 token1 i db).1 in
  let (db2, r2) := run P put_id_unpaid e2 token2 (y_id i) db1 in
  let o2 :=
    Order.set_status (Some "Unpaid")
      (set_paymentResult None (set_paidAt None (set_isPaid false o))) in
  status r2 = 200%nat ∧ body r2 = OrderDoc o2 ∧
  findById Order._id (y_id i) (orders db2) = Some (k, o2) ∧
  (∀ j, j ≠ k -> orders db2 !! j = orders db !! j) ∧
  users db2 = users db ∧ products db2 = products db ∧
  status (run P put_id_cancel e3 token3 (y_id i) db2).2 = 200%nat.
Proof.
  intros Hauth1 Hauth2 Hauth3 Hfind.
  rewrite (pay_found _ _ _ _ _ _ _ _ Hauth1 Hfind).
  assert (Hfind1 : findById Order._id (y_id i) (save k (paid e1 i o) (orders db))
                   = Some (k, paid e1 i o))
    by (eapply findById_save; [exact Hfind | reflexivity]).
  cbn [fst]. unfold put_id_unpaid.
  erewrite run_protected by (rewrite <- Hauth2; by apply protect_users).
  cbn [orders set_orders]. rewrite Hfind1.
  assert (Hfind2 : ∀ o2, Order._id o2 = Order._id o ->
            findById Order._id (y_id i) (save k o2 (save k (paid e1 i o) (orders db)))
            = Some (k, o2)).
  { intros o2 Hid. eapply findById_save; [exact Hfind1 | by rewrite Hid]. }
  split_and!; try done.
  - by apply Hfind2.
  - intros j Hj. cbn [orders set_orders]. by rewrite !save_other.
  - unfold put_id_cancel.
    erewrite run_protected by (rewrite <- Hauth3; by apply protect_users).
    cbn [orders set_orders]. by rewrite Hfind2.
Qed.

Lemma unpaid_after_pay_witness :
  let i := mkPayInput "o1" (PaymentResult.mk (Some "PAY-1") (Some "COMPLETED") None None) in
  let db1 := (run demoPlatform put_id_pay demoEnv (Some "u1") i demoDb).1 in
  let (db2, r2) := run demoPlatform put_id_unpaid (mkEnv 2000 "x") (Some "u2") (y_id i) db1 in
  let o2 :=
    Order.set_status (Some "Unpaid")
      (set_paymentResult None (set_paidAt None (set_isPaid false (demoOrder "o1" false)))) in
  status r2 = 200%nat ∧ body r2 = OrderDoc o2 ∧
  findById Order._id (y_id i) (orders db2) = Some (0%nat, o2) ∧
  (∀ j, j ≠ 0%nat -> orders db2 !! j = orders demoDb !! j) ∧
  users db2 = users demoDb ∧ products db2 = products demoDb ∧
  status (run demoPlatform put_id_cancel (mkEnv 3000 "y") (Some "u1") (y_id i) db2).2
  = 200%nat.
Proof.
  apply (unpaid_after_pay_undoes_payment demoPlatform demoEnv (mkEnv 2000 "x")
           (mkEnv 3000 "y") (Some "u1") (Some "u2") (Some "u1")
           (authUser alice) (authUser bob) (authUser alice)
           (mkPayInput "o1" (PaymentResult.mk (Some "PAY-1") (Some "COMPLETED") None None))
           demoDb 0 (demoOrder "o1" false));
    reflexivity.
Defined.

(** [PUT /:id/pay] does not look at [isCancelled]: an order that
    [PUT /:id/cancel] has cancelled is still marked as paid, and is then
    both cancelled and paid. *)
Theorem pay_after_cancel_accepted P e1 e2 token1 token2 u1 u2 i db k o :
  protect P token1 db = Some u1 ->
  protect P token2 db = Some u2 ->
  findById Order._id (y_id i) (orders db) = Some (k, o) ->
  Order.isPaid o = false ->
  let db1 := (run P put_id_cancel e1 token1 (y_id i) db).1 in
  let (db2, r2) := run P put_id_pay e2 token2 i db1 in
  status r2 = 200%nat ∧
  ∃ o2, findById Order._id (y_id i) (orders db2) = Some (k, o2) ∧
        body r2 = OrderDoc o2 ∧
        Order.isCancelled o2 = true ∧ Order.cancelledAt o2 = Some (now e1) ∧
        Order.isPaid o2 = true ∧ Order.paidAt o2 = Some (now e2).
Proof.
  intros Hauth1 Hauth2 Hfind Hunpaid.
  rewrite (cancel_found _ _ _ _ _ _ _ _ Hauth1 Hfind Hunpaid). cbn [fst].
  set (o1 := Order.set_cancelledAt _ _).
  assert (Hfind1 : findById Order._id (y_id i) (save k o1 (orders db)) = Some (k, o1))
    by (eapply findById_save; [exact Hfind | reflexivity]).
  erewrite pay_found; [|rewrite <- Hauth2; by apply protect_users|exact Hfind1].
  split; [done|]. eexists. split_and!; try reflexivity.
  cbn [orders set_orders]. eapply findById_save; [exact Hfind1 | reflexivity].
Qed.

Lemma pay_after_cancel_witness :
  let db1 := (run demoPlatform put_id_cancel demoEnv (Some "u1") "o3" demoDb).1 in
  let (db2, r2) :=
    run demoPlatform put_id_pay (mkEnv 2000 "x") (Some "u2")
      (mkPayInput "o3" (PaymentResult.mk None None None None)) db1 in
  status r2 = 200%nat ∧
  ∃ o2, findById Order._id "o3" (orders db2) = Some (2%nat, o2) ∧
        body r2 = OrderDoc o2 ∧
        Order.isCancelled o2 = true ∧ Order.cancelledAt o2 = Some 1000%Z ∧
        Order.isPaid o2 = true ∧ Order.paidAt o2 = Some 2000%Z.
Proof.
  apply (pay_after_cancel_accepted demoPlatform demoEnv (mkEnv 2000 "x")
           (Some "u1") (Some "u2") (authUser alice) (authUser bob)
           (mkPayInput "o3" (PaymentResult.mk None None None None))
           demoDb 2 (demoOrder "o3" false));
    reflexivity.
Defined.



(** [DELETE /orders/:id] needs no token.  For an order that exists it
    answers 200 and takes that order out of the collection, which gets
    shorter by one; users and products are as before.  When the orders
    have pairwise different ids, no order with the id is left and every
    other order is. *)
Theorem delete_order_without_token P e id db k o :
  findById Order._id id (orders db) = Some (k, o) ->
  let (db', r) := run P delete_orders_id e None id db in
  r = mkResponse 200 (Message "Order deleted successfully") ∧
  orders db' = delete k (orders db) ∧
  S (length (orders db')) = length (orders db) ∧
  users db' = users db ∧ products db' = products db ∧
  (NoDup (Order._id <$> orders db) ->
     findById Order._id id (orders db') = None ∧
     ∀ x, x ∈ orders db' <-> x ∈ orders db ∧ Order._id x ≠ id).
Proof.
  intros Hfind. simpl. rewrite Hfind. split_and!; try done.
  - cbn [orders set_orders]. unfold removeAt.
    apply findById_Some in Hfind as (Hk & _).
    rewrite length_delete by eauto. apply lookup_lt_Some in Hk. lia.
  - intros Hnd. cbn [orders set_orders]. by eapply removeAt_found.
Qed.

Lemma delete_order_witness :
  let (db', r) := run demoPlatform delete_orders_id demoEnv None "o2" demoDb in
  r = mkResponse 200 (Message "Order deleted successfully") ∧
  orders db' = [demoOrder "o1" false; demoOrder "o3" false] ∧
  findById Order._id "o2" (orders db') = None.
Proof.
  pose proof (delete_order_without_token demoPlatform demoEnv "o2" demoDb 1
                (demoOrder "o2" true) eq_refl) as H.
  simpl in H. destruct H as (Hr & Ho & _ & _ & _ & Hnd).
  split_and!; [exact Hr | exact Ho |].
  apply Hnd. apply (bool_decide_unpack _). vm_compute. exact I.
Defined.

(** An order that [POST /orders] has created under a fresh id is removed
    again by [DELETE /orders/:id]: the database is the one before the
    creation. *)
Theorem create_then_delete_order P e1 e2 token1 token2 u b db :
  protect P token1 db = Some u ->
  noOrderItems (OrderRoutes.orderItems b) = false ->
  findById Order._id (oid e1) (orders db) = None ->
  let (db1, r1) := run P post_orders e1 token1 b db in
  status r1 = 201%nat ∧
  run P delete_orders_id e2 token2 (oid e1) db1
  = (db, mkResponse 200 (Message "Order deleted successfully")).
Proof.
  intros Hauth Hitems Hfresh. unfold post_orders.
  rewrite (run_protected _ _ _ _ _ _ _ Hauth), Hitems.
  split; [done|].
  pose proof (findById_create Order._id (orders db) (newOrder (oid e1) (au_id u) b) Hfresh)
    as Hfound.
  change (Order._id (newOrder (oid e1) (au_id u) b)) with (oid e1) in Hfound.
  unfold delete_orders_id, run. cbn [orders set_orders]. rewrite Hfound.
  rewrite removeAt_create. by destruct db.
Qed.

Lemma create_then_delete_witness :
  let (db1, r1) :=
    run demoPlatform post_orders demoEnv (Some "u2") (demoBody (Some [OrderItem.mk "p3" 2]))
      demoDb in
  status r1 = 201%nat ∧
  run demoPlatform delete_orders_id (mkEnv 2000 "x") None "o4" db1
  = (demoDb, mkResponse 200 (Message "Order deleted successfully")).
Proof.
  apply (create_then_delete_order demoPlatform demoEnv (mkEnv 2000 "x") (Some "u2") None
           (authUser bob) (demoBody (Some [OrderItem.mk "p3" 2])) demoDb);
    reflexivity.
Defined.

(** What [PUT /orders/:id] makes of an order. *)
Lemma update_found P e token i db k o :
  findById Order._id (d_id i) (orders db) = Some (k, o) ->
  (run P put_orders_id e token i db).1
  = set_orders (save k (updated i o) (orders db)) db.
Proof. intros Hfind. simpl. by rewrite Hfind. Qed.

Lemma updated_twice i o : updated i (updated i o) = updated i o.
Proof.
  unfold updated. destruct o; simpl.
  destruct (truthyString (d_status i)), (truthyString (d_paymentMethod i)); done.
Qed.

(** [PUT /orders/:id], which needs no token, for an order that exists
    answers 200 with the order as it is stored then: its status is the one
    that was sent, when one was sent and is not empty, and the old one
    otherwise; likewise its payment method; every other field of the
    order, every other order, the users and the products are as before.
    A request with neither a status nor a payment method leaves the
    database as it is, and the same request a second time gets the same
    answer and changes nothing more. *)
Theorem order_update_takes_what_is_sent P e1 e2 token1 token2 i db k o :
  isObjectId (d_id i) = true ->
  findById Order._id (d_id i) (orders db) = Some (k, o) ->
  let (db1, r1) := run P put_orders_id e1 token1 i db in
  ∃ o1,
    r1 = mkResponse 200 (OrderDoc o1) ∧
    findById Order._id (d_id i) (orders db1) = Some (k, o1) ∧
    Order.status o1
    = match d_status i with
      | Some s => if decide (s = "") then Order.status o else Some s
      | None => Order.status o
      end ∧
    Order.paymentMethod o1
    = match d_paymentMethod i with
      | Some m => if decide (m = "") then Order.paymentMethod o else Some m
      | None => Order.paymentMethod o
      end ∧
    o1 = set_paymentMethod (Order.paymentMethod o1) (Order.set_status (Order.status o1) o) ∧
    (∀ j, j ≠ k -> orders db1 !! j = orders db !! j) ∧
    users db1 = users db ∧ products db1 = products db ∧
    run P put_orders_id e2 token2 i db1 = (db1, r1) ∧
    (truthyString (d_status i) = None -> truthyString (d_paymentMethod i) = None ->
     db1 = db).
Proof.
  intros _ Hfind.
  assert (Hrun : ∀ e token db0 o0,
            findById Order._id (d_id i) (orders db0) = Some (k, o0) ->
            run P put_orders_id e token i db0
            = (set_orders (save k (updated i o0) (orders db0)) db0,
               mkResponse 200 (OrderDoc (updated i o0)))).
  { intros e token db0 o0 H. simpl. by rewrite H. }
  rewrite (Hrun e1 token1 db o Hfind).
  assert (Hfind1 : findById Order._id (d_id i) (save k (updated i o) (orders db))
                   = Some (k, updated i o))
    by (eapply findById_save; [exact Hfind | by destruct o]).
  exists (updated i o). split_and!.
  - done.
  - exact Hfind1.
  - unfold updated, truthyString. destruct o, (d_status i) as [s|]; simpl; [|done].
    by destruct (decide (s = "")).
  - unfold updated, truthyString. destruct o, (d_paymentMethod i) as [m|]; simpl; [|done].
    by destruct (decide (m = "")).
  - unfold updated. by destruct o.
  - intros j Hj. cbn [orders set_orders]. by apply save_other.
  - done.
  - done.
  - rewrite (Hrun e2 token2 (set_orders (save k (updated i o) (orders db)) db)
               (updated i o) Hfind1), updated_twice.
    cbn [orders set_orders].
    unfold save. rewrite list_insert_insert_eq. by destruct db.
  - intros Hs Hm. unfold updated. rewrite Hs, Hm.
    apply findById_Some in Hfind as (Hk & _).
    unfold save. destruct db as [us ps os]. unfold set_orders. simpl in *. f_equal.
    apply list_insert_id. rewrite Hk. by destruct o.
Qed.

(** [PUT /orders/:id/status] and [GET /orders/:id/status] need no token:
    for an order that exists the first answers 200 and the second then
    answers with the status that was sent, also when none was sent. *)
Theorem status_put_then_get P e1 e2 token1 token2 i db k o :
  findById Order._id (t_id i) (orders db) = Some (k, o) ->
  let (db1, r1) := run P put_orders_id_status e1 token1 i db in
  r1 = mkResponse 200 (OrderDoc (Order.set_status (t_status i) o)) ∧
  call P get_orders_id_status e2 token2 (t_id i) db1
  = (db1, mkReply 200 (StatusDoc (t_status i))).
Proof.
  intros Hfind. simpl. rewrite Hfind. split; [done|]. simpl.
  erewrite findById_save; [|exact Hfind|reflexivity]. done.
Qed.

Lemma status_put_then_get_witness :
  let (db1, r1) :=
    run demoPlatform put_orders_id_status demoEnv None (mkStatusInput "o2" (Some "Shipped"))
      demoDb in
  r1 = mkResponse 200 (OrderDoc (Order.set_status (Some "Shipped") (demoOrder "o2" true))) ∧
  call demoPlatform get_orders_id_status demoEnv None "o2" db1
  = (db1, mkReply 200 (StatusDoc (Some "Shipped"))).
Proof.
  apply (status_put_then_get demoPlatform demoEnv demoEnv None None
           (mkStatusInput "o2" (Some "Shipped")) demoDb 1 (demoOrder "o2" true)).
  reflexivity.
Defined.

Lemma order_update_witness :
  let db := set_orders [demoOrder "64b7f0c2a1d3e4f5a6b7c8d9" false; demoOrder "o2" true] demoDb in
  let i := mkUpdateInput "64b7f0c2a1d3e4f5a6b7c8d9" (Some "Shipped") (Some "") in
  let (db1, r1) := run demoPlatform put_orders_id demoEnv None i db in
  ∃ o1,
    r1 = mkResponse 200 (OrderDoc o1) ∧
    findById Order._id "64b7f0c2a1d3e4f5a6b7c8d9" (orders db1) = Some (0%nat, o1) ∧
    Order.status o1 = Some "Shipped" ∧
    Order.paymentMethod o1 = Some "Paypal" ∧
    run demoPlatform put_orders_id (mkEnv 2000 "x") None i db1 = (db1, r1).
Proof.
  destruct (order_update_takes_what_is_sent demoPlatform demoEnv (mkEnv 2000 "x") None None
              (mkUpdateInput "64b7f0c2a1d3e4f5a6b7c8d9" (Some "Shipped") (Some ""))
              (set_orders [demoOrder "64b7f0c2a1d3e4f5a6b7c8d9" false; demoOrder "o2" true]
                 demoDb)
              0 (demoOrder "64b7f0c2a1d3e4f5a6b7c8d9" false) eq_refl eq_refl)
    as (o1 & Hr & Hf & Hs & Hm & _ & _ & _ & _ & Htwice & _).
  exists o1. split_and!; [exact Hr | exact Hf | exact Hs | exact Hm | exact Htwice].
Defined.

Example my_orders_example :
  call demoPlatform get_root demoEnv (Some "u1") () demoDb
  = (demoDb,
     mkReply 200 (OrderList [demoOrder "o3" false; demoOrder "o2" true; demoOrder "o1" false])).
Proof. reflexivity. Qed.

Lemma sortByIdDesc_Permutation {D} (key : D -> Id) (c : list D) :
  sortByIdDesc key c ≡ₚ c.
Proof. apply merge_sort_Permutation. Qed.

Lemma sortByIdDesc_Sorted {D} (key : D -> Id) (c : list D) :
  Sorted (λ a b, String.le (key b) (key a)) (sortByIdDesc key c).
Proof.
  assert (Htotal : Total (λ a b : D, String.le (key b) (key a))).
  { intros a b. destruct (total String.le (key a) (key b)); auto. }
  apply (Sorted_merge_sort _).
Qed.

(** [GET /orders] of an authenticated user answers 200 with the orders
    whose owner is that user, each as often as it is in the collection and
    no other, by descending id; the database is as before. *)
Theorem my_orders_are_mine P e token u db :
  protect P token db = Some u ->
  ∃ os, call P get_root e token () db = (db, mkReply 200 (OrderList os)) ∧
        os ≡ₚ List.filter (λ o, bool_decide (Order.user o = au_id u)) (orders db) ∧
        (∀ o, o ∈ os <-> o ∈ orders db ∧ Order.user o = au_id u) ∧
        Sorted (λ a b, String.le (Order._id b) (Order._id a)) os.
Proof.
  intros Hauth. simpl. rewrite Hauth. eexists. split; [reflexivity|].
  split_and!.
  - apply sortByIdDesc_Permutation.
  - intros o. rewrite sortByIdDesc_Permutation.
    rewrite !list_elem_of_In, filter_In, bool_decide_eq_true. done.
  - apply sortByIdDesc_Sorted.
Qed.

Lemma my_orders_witness :
  ∃ os, call demoPlatform get_root demoEnv (Some "u2") () demoDb
        = (demoDb, mkReply 200 (OrderList os)) ∧
        (∀ o, o ∈ os <-> o ∈ orders demoDb ∧ Order.user o = "u2").
Proof.
  destruct (my_orders_are_mine demoPlatform demoEnv (Some "u2") (authUser bob) demoDb eq_refl)
    as (os & Hcall & _ & Hmine & _).
  exists os. split; [exact Hcall | exact Hmine].
Defined.

End OrderLifecycleFacts.

(** ** Accounts *)

Module UserAccountFacts.
Import UserRoutes UserAccount UserFields UserFacts.

(** Saving a document that still matches leaves it the first match. *)
Lemma findOne_save {D} (F : D -> Prop) `{!∀ d, Decision (F d)} (c : list D) i d d' :
  findOne F c = Some (i, d) ->
  F d' ->
  findOne F (save i d' c) = Some (i, d').
Proof.
  intros (Hi & _ & Hfirst)%findOne_Some HF.
  unfold findOne, save. apply list_find_Some. split_and!.
  - apply list_lookup_insert_eq. by eapply lookup_lt_Some.
  - done.
  - intros j y Hj Hlt. rewrite list_lookup_insert_ne in Hj by lia. eauto.
Qed.

(** Saving the only match as a document that does not match leaves no
    match. *)
Lemma findOne_save_None {D} (F : D -> Prop) `{!∀ d, Decision (F d)} (c : list D) i d' :
  (∀ j x, c !! j = Some x -> j ≠ i -> ¬ F x) ->
  ¬ F d' ->
  findOne F (save i d' c) = None.
Proof.
  intros Hothers HF. unfold findOne, save.
  apply list_find_None, Forall_lookup. intros j x Hj.
  destruct (decide (j = i)) as [->|Hne].
  - apply list_lookup_insert_Some in Hj as [(_ & <- & _)|[? _]]; done.
  - rewrite list_lookup_insert_ne in Hj by done. eauto.
Qed.

Example register_login_example :
  let db1 := (run demoPlatform (post_users demoPlatform) (mkEnv 1000 "u3") None
                (mkRegisterBody "A" "a@x.com" "p") demoDb).1 in
  run demoPlatform (post_login demoPlatform) (mkEnv 1001 "x") None
    (mkLoginBody "a@x.com" "p") db1
  = (db1, mkResponse 200
            (SessionDoc (mkSession "u3" "A" "a@x.com" false "jwt:u3" (Some 1000%Z)))).
Proof. reflexivity. Qed.



(** After [PUT /users/reset-password/:token] has answered 200 for the only
    user that holds the token, that user logs in with the new password
    (when its hash matches it and the user is the first with that email),
    and the token is used up: a second request with it is answered 400 and
    changes nothing. *)
Theorem reset_password_then_login P e1 e2 e3 token1 token2 token3 b db i u :
  findOne (λ u, User.passwordResetToken u = Some (p_token b)) (users db) = Some (i, u) ->
  (∀ j x, users db !! j = Some x -> j ≠ i ->
     User.passwordResetToken x ≠ Some (p_token b)) ->
  findOne (λ x, User.email x = User.email u) (users db) = Some (i, u) ->
  matchPassword P (p_password b) (hashPassword P (p_password b)) = true ->
  let (db1, r1) := run P (put_reset_password_token P) e1 token1 b db in
  r1 = mkResponse 200 (Message "Password reset successful") ∧
  (∃ s, run P (post_login P) e2 token2 (mkLoginBody (User.email u) (p_password b)) db1
        = (db1, mkResponse 200 (SessionDoc s)) ∧ s_id s = User._id u) ∧
  run P (put_reset_password_token P) e3 token3 b db1
  = (db1, mkResponse 400 (Message "Invalid or expired token")).
Proof.
  intros Htoken Honly Hmail Hmatch.
  unfold put_reset_password_token at 1. unfold run at 1. rewrite Htoken.
  set (u1 := User.set_passwordResetExpires None _).
  split; [done|]. split.
  - unfold post_login, run. cbn [users set_users l_email l_password].
    rewrite (findOne_save _ _ _ _ u1 Hmail) by done.
    change (User.password u1) with (hashPassword P (p_password b)).
    rewrite Hmatch. eexists. split; reflexivity.
  - unfold put_reset_password_token, run. cbn [users set_users].
    rewrite findOne_save_None; [done|exact Honly|done].
Qed.

Lemma reset_password_then_login_witness :
  let (db1, r1) :=
    run demoPlatform (put_reset_password_token demoPlatform) demoEnv None
      (mkResetInput "reset-1" "new") demoDb in
  r1 = mkResponse 200 (Message "Password reset successful") ∧
  (∃ s, run demoPlatform (post_login demoPlatform) demoEnv None
          (mkLoginBody "bob@x.com" "new") db1
        = (db1, mkResponse 200 (SessionDoc s)) ∧ s_id s = "u2") ∧
  run demoPlatform (put_reset_password_token demoPlatform) demoEnv None
    (mkResetInput "reset-1" "new") db1
  = (db1, mkResponse 400 (Message "Invalid or expired token")).
Proof.
  apply (reset_password_then_login demoPlatform demoEnv demoEnv demoEnv None None None
           (mkResetInput "reset-1" "new") demoDb 1 bob); try reflexivity.
  intros [|[|j]] x Hx Hj; try done; simpl in Hx.
  by injection Hx as <-.
Defined.

(** The user that [protect] resolves is in the collection under its id. *)
Lemma protect_found P token db u :
  protect P token db = Some u ->
  ∃ k x, findById User._id (au_id u) (users db) = Some (k, x) ∧ u = authUser x.
Proof.
  unfold protect. intros H.
  destruct token as [t|]; [|done]. simpl in H.
  destruct (verifyToken P t) as [uid|]; [|done]. simpl in H.
  destruct (findById User._id uid (users db)) as [[k x]|] eqn:Hfind; [|done].
  simpl in H. injection H as <-.
  pose proof (findById_Some _ _ _ _ _ Hfind) as (_ & Hid & _).
  exists k, x. split; [|done]. simpl. by rewrite Hid.
Qed.

Example profile_update_example :
  run demoPlatform (put_profile demoPlatform) demoEnv (Some "u1")
    (mkProfileBody (Some "Alicia") (Some "") None) demoDb
  = (set_users [set_name "Alicia" alice; bob] demoDb,
     mkResponse 200
       (SessionDoc (mkSession "u1" "Alicia" "alice@x.com" false "jwt:u1" (Some 10%Z)))).
Proof. reflexivity. Qed.

(** [PUT /users/profile] of an authenticated user is never answered 404:
    it answers 200 with a token generated for the user's id and stores the
    user with the name and the email of the request where these are there
    and not empty, and with the hash of the password where that is; a
    field that is missing or empty keeps its value, and nothing else of
    the user and no other user changes. *)
Theorem profile_update_keeps_what_is_not_sent P e token u b db :
  protect P token db = Some u ->
  let (db1, r) := run P (put_profile P) e token b db in
  ∃ k old new,
    findById User._id (au_id u) (users db) = Some (k, old) ∧
    findById User._id (au_id u) (users db1) = Some (k, new) ∧
    (∀ j, j ≠ k -> users db1 !! j = users db !! j) ∧
    r = mkResponse 200
          (SessionDoc (mkSession (au_id u) (User.name new) (User.email new)
                         (User.isAdmin old) (generateToken P (au_id u))
                         (Some (User.createdAt old)))) ∧
    User.name new = default (User.name old) (truthyString (f_name b)) ∧
    User.email new = default (User.email old) (truthyString (f_email b)) ∧
    User.password new
    = default (User.password old) (hashPassword P <$> truthyString (f_password b)) ∧
    new = User.set_password (User.password new)
            (set_email (User.email new) (set_name (User.name new) old)).
Proof.
  intros Hauth.
  destruct (protect_found _ _ _ _ Hauth) as (k & old & Hfind & Hu).
  unfold put_profile. rewrite (run_protected _ _ _ _ _ _ _ Hauth), Hfind.
  pose proof (findById_Some _ _ _ _ _ Hfind) as (_ & Hid & _).
  eexists k, old, _. split_and!; [done| | | | | | |].
  - cbn [users set_users]. eapply findById_save; [exact Hfind|].
    by destruct (truthyString (f_password b)).
  - intros j Hj. cbn [users set_users]. by apply save_other.
  - unfold json. do 3 f_equal.
    all: try (destruct (truthyString (f_password b)); simpl; by rewrite ?Hid).
  - by destruct (truthyString (f_password b)).
  - by destruct (truthyString (f_password b)).
  - by destruct (truthyString (f_password b)).
  - destruct old; by destruct (truthyString (f_password b)).
Qed.

Lemma profile_update_witness :
  let (db1, r) :=
    run demoPlatform (put_profile demoPlatform) demoEnv (Some "u1")
      (mkProfileBody (Some "Alicia") (Some "") None) demoDb in
  ∃ new,
    findById User._id "u1" (users db1) = Some (0%nat, new) ∧
    User.name new = "Alicia" ∧ User.email new = "alice@x.com" ∧
    User.password new = "#secret".
Proof.
  pose proof (profile_update_keeps_what_is_not_sent demoPlatform demoEnv (Some "u1")
                (authUser alice) (mkProfileBody (Some "Alicia") (Some "") None) demoDb
                eq_refl) as H.
  simpl in H. destruct H as (k & old & new & Hold & Hnew & _ & _ & Hn & Hm & Hp & _).
  injection Hold as <- <-. exists new. split_and!; [exact Hnew | exact Hn | exact Hm | exact Hp].
Defined.

(** [userRouter.put('/users/:id', ..)] needs no token.  For a user that exists, a
    request that carries a password is answered 200 with the user, stored
    with the hash of that password; when the hash matches the password and
    the user is the first with its email, [POST /users/login] with that
    email and the password then answers 200 for that user. *)
Theorem put_user_without_token_sets_password P e1 e2 token2 i db k u p :
  findById User._id (u_id i) (users db) = Some (k, u) ->
  truthyString (f_password (u_body i)) = Some p ->
  matchPassword P p (hashPassword P p) = true ->
  let (db1, r1) := call P (put_users_id P) e1 None i db in
  ∃ u1,
    r1 = mkReply 200 (UserDoc u1) ∧
    findById User._id (u_id i) (users db1) = Some (k, u1) ∧
    User.password u1 = hashPassword P p ∧
    (findOne (λ x, User.email x = User.email u1) (users db1) = Some (k, u1) ->
     ∃ s, run P (post_login P) e2 token2 (mkLoginBody (User.email u1) p) db1
          = (db1, mkResponse 200 (SessionDoc s)) ∧
          s_id s = User._id u).
Proof.
  intros Hfind Hpw Hmatch. unfold put_users_id, call. rewrite Hfind, Hpw.
  eexists. split_and!; [reflexivity| |reflexivity|].
  - cbn [users set_users]. eapply findById_save; [exact Hfind | reflexivity].
  - intros Hfirst. unfold post_login, run.
    cbn [l_email l_password]. rewrite Hfirst.
    cbn [User.password User.set_password]. rewrite Hmatch.
    eexists. split; reflexivity.
Qed.

Lemma put_user_without_token_witness :
  let (db1, r1) :=
    call demoPlatform (put_users_id demoPlatform) demoEnv None
      (mkUpdateInput "u1" (mkProfileBody None None (Some "mine"))) demoDb in
  ∃ u1,
    r1 = mkReply 200 (UserDoc u1) ∧
    User.password u1 = "#mine" ∧
    ∃ s, run demoPlatform (post_login demoPlatform) demoEnv None
           (mkLoginBody (User.email u1) "mine") db1
         = (db1, mkResponse 200 (SessionDoc s)) ∧
         s_id s = "u1".
Proof.
  pose proof (put_user_without_token_sets_password demoPlatform demoEnv demoEnv None
                (mkUpdateInput "u1" (mkProfileBody None None (Some "mine"))) demoDb
                0 alice "mine" eq_refl eq_refl eq_refl) as H.
  simpl in H. destruct H as (u1 & Hr & Hf & Hp & Hlogin).
  exists u1. split_and!; [exact Hr | exact Hp |].
  apply Hlogin. injection Hr as <-. reflexivity.
Defined.

Example cart_update_example :
  run demoPlatform put_users_id_cart_product_id demoEnv None
    (mkCartUpdateInput "u2" "p2" 7) demoDb
  = (set_users [alice; User.set_cart [CartItem.mk "p1" 2; CartItem.mk "p2" 7] bob] demoDb,
     mkResponse 200 (Message "Cart updated successfully")).
Proof. reflexivity. Qed.

(** After [addToCart] the product is in the cart. *)
Lemma addToCart_finds productId quantity (cart : list CartItem.t) :
  ∃ j item,
    list_find (λ item, CartItem.product item = productId) (addToCart productId quantity cart)
    = Some (j, item).
Proof.
  unfold addToCart.
  destruct (list_find _ cart) as [[k old]|] eqn:Hfind.
  - pose proof Hfind as (Hk & Hp & Hfirst)%list_find_Some.
    exists k, (CartItem.set_quantity (CartItem.quantity old + quantity) old).
    apply list_find_Some. split_and!.
    + apply list_lookup_insert_eq. by eapply lookup_lt_Some.
    + done.
    + intros j y Hj Hlt. rewrite list_lookup_insert_ne in Hj by lia. eauto.
  - exists (length cart), (CartItem.mk productId quantity).
    rewrite list_find_app_r by done. simpl. by rewrite decide_True.
Qed.

Lemma cart_add_found P e token id pid q db k u :
  findById User._id id (users db) = Some (k, u) ->
  (run P post_users_id_cart e token (mkCartInput id pid q) db).1
  = set_users (save k (User.set_cart (addToCart pid q (User.cart u)) u) (users db)) db.
Proof. intros Hfind. simpl. by rewrite Hfind. Qed.

(** [PUT /users/:id/cart/:product_id] for a user that exists.  When the
    cart has no item of the product the answer is 404 and nothing changes.
    After [POST /users/:id/cart] has added the product, the answer is 200
    and the item of the product has the quantity of the request, whatever
    it had; the cart keeps its products in their order. *)
Theorem cart_quantity_set_after_add P e1 e2 token1 token2 id pid q q' db k u :
  findById User._id id (users db) = Some (k, u) ->
  ((∀ item, item ∈ User.cart u -> CartItem.product item ≠ pid) ->
   run P put_users_id_cart_product_id e2 token2 (mkCartUpdateInput id pid q') db
   = (db, mkResponse 404 (Message "Product not found in cart"))) ∧
  let db1 := (run P post_users_id_cart e1 token1 (mkCartInput id pid q) db).1 in
  let (db2, r2) :=
    run P put_users_id_cart_product_id e2 token2 (mkCartUpdateInput id pid q') db1 in
  r2 = mkResponse 200 (Message "Cart updated successfully") ∧
  ∃ u2 j,
    findById User._id id (users db2) = Some (k, u2) ∧
    list_find (λ item, CartItem.product item = pid) (User.cart u2)
    = Some (j, CartItem.mk pid q') ∧
    CartItem.product <$> User.cart u2
    = CartItem.product <$> addToCart pid q (User.cart u) ∧
    (∀ j', j' ≠ j -> User.cart u2 !! j' = addToCart pid q (User.cart u) !! j').
Proof.
  intros Hfind. split.
  - intros Hnone. simpl. rewrite Hfind.
    destruct (list_find _ (User.cart u)) as [[j item]|] eqn:Hitem; [|done].
    apply list_find_Some in Hitem as (Hj & Hp & _).
    exfalso. eapply Hnone; [|exact Hp]. by eapply list_elem_of_lookup_2.
  - rewrite (cart_add_found _ _ _ _ _ _ _ _ _ Hfind).
    set (u1 := User.set_cart _ u).
    assert (Hfind1 : findById User._id id (save k u1 (users db)) = Some (k, u1))
      by (eapply findById_save; [exact Hfind | reflexivity]).
    unfold put_users_id_cart_product_id, run.
    cbn [users set_users k_id k_product_id k_quantity]. rewrite Hfind1.
    destruct (addToCart_finds pid q (User.cart u)) as (j & item & Hitem).
    change (User.cart u1) with (addToCart pid q (User.cart u)). rewrite Hitem.
    pose proof Hitem as (Hj & Hp & Hfirst)%list_find_Some.
    split; [done|]. eexists _, j. split_and!.
    + cbn [users set_users]. eapply findById_save; [exact Hfind1 | reflexivity].
    + cbn [User.cart User.set_cart]. apply list_find_Some. split_and!.
      * rewrite list_lookup_insert_eq by (by eapply lookup_lt_Some).
        unfold CartItem.set_quantity. by rewrite Hp.
      * done.
      * intros j' y Hy Hlt. rewrite list_lookup_insert_ne in Hy by lia. eauto.
    + cbn [User.cart User.set_cart]. rewrite list_fmap_insert.
      apply list_insert_id. by rewrite list_lookup_fmap, Hj.
    + intros j' Hne. cbn [User.cart User.set_cart].
      by rewrite list_lookup_insert_ne.
Qed.

Lemma cart_quantity_witness :
  let db1 := (run demoPlatform post_users_id_cart demoEnv None
                (mkCartInput "u1" "p2" 3) demoDb).1 in
  let (db2, r2) :=
    run demoPlatform put_users_id_cart_product_id demoEnv None
      (mkCartUpdateInput "u1" "p2" 1) db1 in
  r2 = mkResponse 200 (Message "Cart updated successfully") ∧
  ∃ u2 j,
    findById User._id "u1" (users db2) = Some (0%nat, u2) ∧
    list_find (λ item, CartItem.product item = "p2") (User.cart u2)
    = Some (j, CartItem.mk "p2" 1).
Proof.
  destruct (cart_quantity_set_after_add demoPlatform demoEnv demoEnv None None
              "u1" "p2" 3 1 demoDb 0 alice eq_refl) as [_ H].
  simpl in H. destruct H as (Hr & u2 & j & Hf & Hitem & _).
  split; [exact Hr|]. exists u2, j. split; [exact Hf | exact Hitem].
Defined.

Example favorite_delete_example :
  let db := set_users [UserFields.set_favorites ["p1"; "p2"; "p1"] alice; bob] demoDb in
  run demoPlatform delete_users_id_favorites_product_id demoEnv None
    (mkFavoriteInput "u1" "p1") db
  = (set_users [UserFields.set_favorites ["p2"; "p1"] alice; bob] demoDb,
     mkResponse 200 (Message "Product removed from favorites")).
Proof. reflexivity. Qed.

(** [DELETE /users/:id/favorites/:product_id] for a user that exists always
    answers 200.  When the product is not among the favorites the database
    is as before; when it is, its first occurrence is taken out and all
    else stays, so that favorites without repetition no longer hold the
    product. *)
Theorem favorite_removed_once P e token b db k u :
  findById User._id (a_id b) (users db) = Some (k, u) ->
  let (db', r) := run P delete_users_id_favorites_product_id e token b db in
  r = mkResponse 200 (Message "Product removed from favorites") ∧
  (a_product_id b ∉ User.favorites u -> db' = db) ∧
  (a_product_id b ∈ User.favorites u ->
   ∃ index,
     User.favorites u !! index = Some (a_product_id b) ∧
     (∀ j, (j < index)%nat -> User.favorites u !! j ≠ Some (a_product_id b)) ∧
     findById User._id (a_id b) (users db')
     = Some (k, set_favorites (delete index (User.favorites u)) u) ∧
     (∀ j, j ≠ k -> users db' !! j = users db !! j) ∧
     (NoDup (User.favorites u) ->
      a_product_id b ∉ delete index (User.favorites u))).
Proof.
  intros Hfind. simpl. rewrite Hfind.
  destruct (list_find (λ f, f = a_product_id b) (User.favorites u))
    as [[index f]|] eqn:Hfav.
  - apply list_find_Some in Hfav as (Hi & -> & Hfirst).
    split; [done|]. split.
    + intros Hnot. exfalso. apply Hnot. by eapply list_elem_of_lookup_2.
    + intros _. exists index. split_and!; [done| | | |].
      * intros j Hlt Hj. by eapply Hfirst.
      * cbn [users set_users]. eapply findById_save; [exact Hfind | reflexivity].
      * intros j Hj. cbn [users set_users]. by apply save_other.
      * intros Hnd Hin.
        rewrite <- (take_drop_middle _ _ _ Hi) in Hnd.
        rewrite delete_take_drop in Hin.
        apply NoDup_app in Hnd as (_ & Hl & Hr). apply NoDup_cons in Hr as [Hr _].
        apply elem_of_app in Hin as [Hin|Hin]; [|done].
        apply (Hl _ Hin). apply list_elem_of_here.
  - apply list_find_None in Hfav. rewrite Forall_forall in Hfav.
    split; [done|]. split; [done|].
    intros Hin. exfalso. by eapply Hfav.
Qed.

Lemma favorite_removed_witness :
  let db := set_users [UserFields.set_favorites ["p1"; "p2"] alice; bob] demoDb in
  let (db', r) :=
    run demoPlatform delete_users_id_favorites_product_id demoEnv None
      (mkFavoriteInput "u1" "p2") db in
  r = mkResponse 200 (Message "Product removed from favorites") ∧
  ∃ index,
    findById User._id "u1" (users db')
    = Some (0%nat, set_favorites (delete index ["p1"; "p2"])
                     (UserFields.set_favorites ["p1"; "p2"] alice)) ∧
    "p2" ∉ delete index ["p1"; "p2"].
Proof.
  pose proof (favorite_removed_once demoPlatform demoEnv None (mkFavoriteInput "u1" "p2")
                (set_users [UserFields.set_favorites ["p1"; "p2"] alice; bob] demoDb)
                0 (UserFields.set_favorites ["p1"; "p2"] alice) eq_refl) as H.
  simpl in H. destruct H as (Hr & _ & Hin).
  split; [exact Hr|].
  destruct Hin as (index & _ & _ & Hf & _ & Hnd).
  { apply list_elem_of_further, list_elem_of_here. }
  exists index. split; [exact Hf|].
  apply Hnd. apply (bool_decide_unpack _). vm_compute. exact I.
Defined.

End UserAccountFacts.

(** ** The catalogue *)

Module CatalogueFacts.
Import ProductRoutes Catalogue ProductFields.

(** [Math.ceil(count / 12)] is the least number of pages of 12 that hold
    [count] products. *)
Lemma pagesOf_bounds (count : nat) :
  (Z.of_nat count <= 12 * pagesOf count < Z.of_nat count + 12)%Z.
Proof.
  assert (Hdiv : pagesOf count = (- ((- Z.of_nat count) / 12))%Z).
  { unfold pagesOf. change (inject_Z (Z.of_nat pageSize)) with (12 # 1).
    unfold Qceiling, Qfloor, Qdiv, Qmult, Qinv, Qopp, inject_Z. cbn [Qnum Qden].
    change (Z.pos (1 * 12)) with 12%Z. by rewrite Z.mul_1_r. }
  rewrite Hdiv.
  pose proof (Z.div_mod (- Z.of_nat count) 12 ltac:(lia)) as Hdm.
  pose proof (Z.mod_pos_bound (- Z.of_nat count) 12 ltac:(lia)) as Hb.
  lia.
Qed.

Lemma pages_concat {A} (l : list A) (n m : nat) :
  concat ((λ k, take n (drop (n * (k - 1)) l)) <$> seq 1 m) = take (n * m) l.
Proof.
  induction m as [|m IH].
  - by rewrite Nat.mul_0_r.
  - rewrite seq_S, fmap_app, concat_app, IH. simpl. rewrite app_nil_r.
    replace (m - 0)%nat with m by lia.
    rewrite take_take_drop. f_equal. lia.
Qed.

Example one_page_example :
  call demoPlatform (get_root (λ _ _, true)) demoEnv None (mkListQuery None None) demoDb
  = (demoDb, mkReply 200 (ProductPage [honey; cream] 1 1)).
Proof. reflexivity. Qed.

(** [GET /products] cuts the matching products, by descending id, into
    pages of 12.  Every page is answered with 200, holds at most 12
    products and leaves the database as it is; [pages] is the least number
    of pages that hold all matching products; the pages 1 to [pages] one
    after the other are all the matching products by descending id, and
    every later page is empty. *)
Theorem product_pages_partition P regex e token keyword db :
  let found := List.filter (matching regex keyword) (products db) in
  let answer n := call P (get_root regex) e token (mkListQuery (Some n) keyword) db in
  ∃ pages : nat,
    (length found <= 12 * pages < length found + 12)%nat ∧
    (∀ n, (1 <= n)%nat ->
       answer n = (db, mkReply 200 (ProductPage (pageItems (answer n)) n (Z.of_nat pages))) ∧
       (length (pageItems (answer n)) <= 12)%nat ∧
       ((pages < n)%nat -> pageItems (answer n) = [])) ∧
    concat ((λ n, pageItems (answer n)) <$> seq 1 pages) = sortByIdDesc Product._id found ∧
    sortByIdDesc Product._id found ≡ₚ found ∧
    Sorted (λ a b, String.le (Product._id b) (Product._id a))
      (sortByIdDesc Product._id found).
Proof.
  intros found answer.
  pose proof (pagesOf_bounds (length found)) as Hpages.
  exists (Z.to_nat (pagesOf (length found))).
  assert (Hz : Z.of_nat (Z.to_nat (pagesOf (length found))) = pagesOf (length found))
    by lia.
  assert (Hlen : length (sortByIdDesc Product._id found) = length found)
    by (by rewrite OrderLifecycleFacts.sortByIdDesc_Permutation).
  assert (Hitems : ∀ n, (1 <= n)%nat ->
            pageItems (answer n)
            = take 12 (drop (12 * (n - 1)) (sortByIdDesc Product._id found))).
  { intros [|n] Hn; [lia|]. reflexivity. }
  split; [lia|]. split; [|split; [|split]].
  - intros n Hn. split_and!.
    + rewrite (Hitems n Hn). destruct n as [|n]; [lia|].
      unfold answer, call, get_root. cbn [q_pageNumber q_keyword pageOf].
      by rewrite Hz.
    + rewrite (Hitems n Hn), length_take. lia.
    + intros Hlast. rewrite (Hitems n Hn), drop_ge; [done|]. rewrite Hlen. nia.
  - rewrite <- (take_ge (sortByIdDesc Product._id found)
                  (12 * Z.to_nat (pagesOf (length found)))) by (rewrite Hlen; lia).
    rewrite <- pages_concat. f_equal.
    apply list_fmap_ext. intros i n Hn%lookup_seq. apply Hitems. lia.
  - apply OrderLifecycleFacts.sortByIdDesc_Permutation.
  - apply OrderLifecycleFacts.sortByIdDesc_Sorted.
Qed.

(** A request without [pageNumber], or with 0, gets page 1, and a missing
    or empty [keyword] selects every product.  When at most 12 products
    match, page 1 holds all of them by descending id, and [pages] is 1, or
    0 when none matches. *)
Theorem product_list_first_page P regex e token q db :
  let found := List.filter (matching regex (q_keyword q)) (products db) in
  (q_pageNumber q = None ∨ q_pageNumber q = Some 0%nat) ->
  call P (get_root regex) e token q db
  = call P (get_root regex) e token (mkListQuery (Some 1%nat) (q_keyword q)) db ∧
  (truthyString (q_keyword q) = None -> found = products db) ∧
  ((length found <= 12)%nat ->
   call P (get_root regex) e token q db
   = (db, mkReply 200
            (ProductPage (sortByIdDesc Product._id found) 1
               (if decide (found = []) then 0 else 1)))).
Proof.
  intros found Hpage.
  assert (Hone : pageOf (q_pageNumber q) = 1%nat) by (by destruct Hpage as [-> | ->]).
  split_and!.
  - unfold call, get_root. cbn [q_pageNumber q_keyword]. by rewrite Hone.
  - intros Hkw. unfold found, matching. rewrite Hkw.
    induction (products db) as [|p ps IH]; [done|]. simpl. by rewrite IH.
  - intros Hsmall. unfold call, get_root. rewrite Hone. fold found.
    simpl drop. rewrite drop_0, take_ge
      by (rewrite OrderLifecycleFacts.sortByIdDesc_Permutation; unfold pageSize; lia).
    do 3 f_equal.
    pose proof (pagesOf_bounds (length found)) as Hb.
    destruct (decide (found = [])) as [->|Hne]; [done|].
    destruct found; [done|]. simpl in *. lia.
Qed.

Lemma product_list_first_page_witness :
  call demoPlatform (get_root (λ _ _, true)) demoEnv None (mkListQuery (Some 0%nat) (Some ""))
    demoDb
  = (demoDb, mkReply 200 (ProductPage [honey; cream] 1 1)).
Proof.
  destruct (product_list_first_page demoPlatform (λ _ _, true) demoEnv None
              (mkListQuery (Some 0%nat) (Some "")) demoDb (or_intror eq_refl))
    as (_ & _ & Hsmall).
  rewrite Hsmall; [reflexivity|]. simpl. lia.
Defined.

Lemma product_pages_witness :
  ∃ pages : nat,
    (2 <= 12 * pages < 2 + 12)%nat ∧
    call demoPlatform (get_root (λ _ _, true)) demoEnv None (mkListQuery (Some 1%nat) None)
      demoDb
    = (demoDb, mkReply 200 (ProductPage [honey; cream] 1 (Z.of_nat pages))).
Proof.
  destruct (product_pages_partition demoPlatform (λ _ _, true) demoEnv None None demoDb)
    as (pages & Hb & Hpage & _).
  exists pages. split; [exact Hb|].
  destruct (Hpage 1%nat ltac:(lia)) as (Hans & _). exact Hans.
Defined.

Example product_create_example :
  call demoPlatform (post_root "no admin") (mkEnv 1000 "p3") (Some "u9")
    (mkCreateBody "Mousse" 35 "tan" "/images/4.png" 0) adminDb
  = (set_products [cream; honey; Product.mk "p3" "Mousse" "/images/4.png" "tan" 35 0 0 0 []]
       adminDb,
     mkReply 201 (ProductDoc (Product.mk "p3" "Mousse" "/images/4.png" "tan" 35 0 0 0 []))).
Proof. reflexivity. Qed.

(** [POST /products] of an administrator.  When a product has the name of
    the request the answer is 400 and nothing changes; otherwise one
    product is added, with the fields of the request and no review, and is
    answered with 201.  Either way product names that were pairwise
    different still are. *)
Theorem product_create_keeps_names_unique P notAdmin e token u b db :
  protect P token db = Some u ->
  au_isAdmin u = true ->
  let (db', r) := call P (post_root notAdmin) e token b db in
  ((∃ p, p ∈ products db ∧ Product.name p = n_name b) ->
     r = mkReply 400 (Plain (Message "Product name already exist")) ∧ db' = db) ∧
  ((∀ p, p ∈ products db -> Product.name p ≠ n_name b) ->
     ∃ p, r = mkReply 201 (ProductDoc p) ∧
          products db' = products db ++ [p] ∧
          users db' = users db ∧ orders db' = orders db ∧
          Product.name p = n_name b ∧ Product.price p = n_price b ∧
          Product.countInStock p = n_countInStock b ∧
          Product.reviews p = []) ∧
  (namesUnique db -> namesUnique db').
Proof.
  intros Hauth Hadmin. unfold post_root, call, admin. rewrite Hauth, Hadmin.
  destruct (findOne _ (products db)) as [[k p0]|] eqn:Hfind.
  - split_and!; [done| |done].
    intros Hfree. apply UserFacts.findOne_Some in Hfind as (Hk & Hname & _).
    exfalso. eapply Hfree; [|exact Hname]. by eapply list_elem_of_lookup_2.
  - apply list_find_None in Hfind. rewrite Forall_forall in Hfind. split_and!.
    + intros (p & Hin & Hname). exfalso. by eapply Hfind.
    + intros _. eexists. split_and!; reflexivity.
    + unfold namesUnique, create. cbn [products set_products]. intros Hnd.
      rewrite fmap_app. apply NoDup_app. split_and!; [done| |apply NoDup_singleton].
      intros x Hx ->%list_elem_of_singleton.
      apply list_elem_of_fmap in Hx as (p & Heq & Hin). by eapply Hfind.
Qed.

Lemma product_create_witness :
  let (db', r) :=
    call demoPlatform (post_root "no admin") (mkEnv 1000 "p3") (Some "u9")
      (mkCreateBody "Honey Starter Set" 1 "copy" "/images/1.png" 3) adminDb in
  r = mkReply 400 (Plain (Message "Product name already exist")) ∧ db' = adminDb.
Proof.
  pose proof (product_create_keeps_names_unique demoPlatform "no admin" (mkEnv 1000 "p3")
                (Some "u9") (authUser carol)
                (mkCreateBody "Honey Starter Set" 1 "copy" "/images/1.png" 3) adminDb
                eq_refl eq_refl) as H.
  simpl in H. destruct H as (Htaken & _ & _).
  apply Htaken. exists honey. split; [|reflexivity].
  apply list_elem_of_further, list_elem_of_here.
Defined.

Example product_update_example :
  call demoPlatform (put_id "no admin") demoEnv (Some "u9")
    (mkUpdateInput "p1" None (Some 0%Q) None None (Some 0%Z)) adminDb
  = (adminDb, mkReply 200 (ProductDoc cream)).
Proof. reflexivity. Qed.

(** [PUT /products/:id] of an administrator for a product that exists
    answers 200 with the product.  A number is taken only when it is there
    and not 0: a request with [countInStock] 0 or [price] 0 leaves the
    stock or the price as it was.  The id, the reviews and their
    aggregates never change, and no other product does. *)
Theorem product_update_ignores_zero P notAdmin e token u b db k p :
  protect P token db = Some u ->
  au_isAdmin u = true ->
  findById Product._id (e_id b) (products db) = Some (k, p) ->
  let (db', r) := call P (put_id notAdmin) e token b db in
  ∃ p',
    r = mkReply 200 (ProductDoc p') ∧
    findById Product._id (e_id b) (products db') = Some (k, p') ∧
    (∀ j, j ≠ k -> products db' !! j = products db !! j) ∧
    (∀ z, e_countInStock b = Some z ->
       Product.countInStock p' = if Z.eqb z 0 then Product.countInStock p else z) ∧
    (e_countInStock b = None -> Product.countInStock p' = Product.countInStock p) ∧
    (∀ x, e_price b = Some x ->
       Product.price p' = if Qeq_bool x 0 then Product.price p else x) ∧
    (e_price b = None -> Product.price p' = Product.price p) ∧
    Product._id p' = Product._id p ∧
    Product.reviews p' = Product.reviews p ∧
    Product.rating p' = Product.rating p ∧
    Product.numReviews p' = Product.numReviews p.
Proof.
  intros Hauth Hadmin Hfind. unfold put_id, call, admin.
  rewrite Hauth, Hadmin, Hfind.
  eexists. split_and!; try reflexivity.
  - cbn [products set_products]. eapply findById_save; [exact Hfind | reflexivity].
  - intros j Hj. cbn [products set_products]. by apply save_other.
  - intros z Hz. simpl. rewrite Hz. simpl. by destruct (Z.eqb z 0).
  - intros Hz. simpl. by rewrite Hz.
  - intros x Hx. simpl. rewrite Hx. simpl. by destruct (Qeq_bool x 0).
  - intros Hx. simpl. by rewrite Hx.
Qed.

Lemma product_update_witness :
  let (db', r) :=
    call demoPlatform (put_id "no admin") demoEnv (Some "u9")
      (mkUpdateInput "p1" None (Some 0%Q) None None (Some 0%Z)) adminDb in
  ∃ p',
    r = mkReply 200 (ProductDoc p') ∧
    Product.countInStock p' = 60%Z ∧ Product.price p' = 89%Q.
Proof.
  pose proof (product_update_ignores_zero demoPlatform "no admin" demoEnv (Some "u9")
                (authUser carol) (mkUpdateInput "p1" None (Some 0%Q) None None (Some 0%Z))
                adminDb 0 cream eq_refl eq_refl eq_refl) as H.
  simpl in H. destruct H as (p' & Hr & _ & _ & Hstock & _ & Hprice & _).
  exists p'. split_and!; [exact Hr | exact (Hstock 0%Z eq_refl) | exact (Hprice 0%Q eq_refl)].
Defined.

(** After [DELETE /products/:id] of an administrator has answered 200 for
    a product, and the products have pairwise different ids, the product
    is gone: [GET /products/:id] and a review for it are answered 404;
    every other product is still there. *)
Theorem product_delete_then_404 P notAdmin e1 e2 e3 token1 token2 token3 u u3 id b db k p :
  protect P token1 db = Some u ->
  au_isAdmin u = true ->
  findById Product._id id (products db) = Some (k, p) ->
  NoDup (Product._id <$> products db) ->
  protect P token3 db = Some u3 ->
  v_id b = id ->
  let (db', r) := run P (delete_id notAdmin) e1 token1 id db in
  r = mkResponse 200 (Message "Product deleted") ∧
  call P get_id e2 token2 id db'
  = (db', mkReply 404 (Plain (Message "Product not Found"))) ∧
  run P post_id_review e3 token3 b db'
  = (db', mkResponse 404 (Message "Product not Found")) ∧
  (∀ x, x ∈ products db' <-> x ∈ products db ∧ Product._id x ≠ id).
Proof.
  intros Hauth Hadmin Hfind Hnd Hauth3 Hb. unfold delete_id, admin.
  rewrite (run_protected _ _ _ _ _ _ _ Hauth), Hadmin, Hfind.
  destruct (removeAt_found Product._id id (products db) k p Hnd Hfind) as [Hgone Hrest].
  split_and!; [done| | |done].
  - unfold call, get_id. cbn [products set_products]. by rewrite Hgone.
  - unfold post_id_review.
    erewrite run_protected by (rewrite <- Hauth3; by apply protect_users).
    cbn [products set_products]. by rewrite Hb, Hgone.
Qed.

Lemma product_delete_witness :
  let (db', r) := run demoPlatform (delete_id "no admin") demoEnv (Some "u9") "p2" adminDb in
  r = mkResponse 200 (Message "Product deleted") ∧
  call demoPlatform get_id demoEnv None "p2" db'
  = (db', mkReply 404 (Plain (Message "Product not Found"))) ∧
  run demoPlatform post_id_review demoEnv (Some "u2") (mkReviewInput "p2" 3 "late") db'
  = (db', mkResponse 404 (Message "Product not Found")) ∧
  (∀ x, x ∈ products db' <-> x ∈ products adminDb ∧ Product._id x ≠ "p2").
Proof.
  apply (product_delete_then_404 demoPlatform "no admin" demoEnv demoEnv demoEnv
           (Some "u9") None (Some "u2") (authUser carol) (authUser bob) "p2"
           (mkReviewInput "p2" 3 "late") adminDb 1 honey); try reflexivity.
  apply (bool_decide_unpack _). vm_compute. exact I.
Defined.

End CatalogueFacts.

(** ** What every route keeps *)

Module ServerFacts.
Import UserRoutes ProductRoutes UserFacts ProductFacts.

Lemma findById_lookup {D} (key : D -> Id) id (c : list D) k d :
  findById key id c = Some (k, d) -> c !! k = Some d.
Proof. by intros (? & _)%findById_Some. Qed.

Lemma list_find_lookup {D} (F : D -> Prop) `{!∀ d, Decision (F d)} (c : list D) k d :
  list_find F c = Some (k, d) -> c !! k = Some d.
Proof. by intros (? & _)%list_find_Some. Qed.

Lemma cart_products_insert (cart : list CartItem.t) k item q :
  cart !! k = Some item ->
  CartItem.product <$> <[k := CartItem.set_quantity q item]> cart
  = CartItem.product <$> cart.
Proof.
  intros Hk. rewrite list_fmap_insert. apply list_insert_id.
  by rewrite list_lookup_fmap, Hk.
Qed.

Local Ltac lookups :=
  repeat match goal with
  | H : findById _ _ _ = Some _ |- _ => apply findById_Some in H as (? & ? & ?)
  | H : list_find _ _ = Some _ |- _ => apply list_find_Some in H as (? & ? & ?)
  end.

Local Ltac settle :=
  cbn [users products orders set_users set_products set_orders fst snd replied];
  first
    [ apply Unchanged
    | apply Removed
    | eapply Saved; [eassumption|]
    | apply Created ].

Local Ltac step :=
  lazymatch goal with
  | |- True => exact I
  | |- orderStep ?o _ => by destruct o
  | |- productNew _ _ => reflexivity
  | |- userStep _ ?u _ =>
      split_and!;
      [ by destruct u
      | by destruct u
      | first [discriminate | reflexivity | intros; discriminate | intros; reflexivity]
      | first [ by left
              | left; eapply cart_products_insert; eassumption
              | right; by eexists _, _ ] ]
  | |- productStep ?p _ =>
      split; [by destruct p|]; first [by left | idtac]
  | _ => idtac
  end.

(** A request to any route leaves each of the three collections as it is,
    or saves one document where it was read, or creates one at the end, or
    removes one.  An order that is saved keeps its id, owner, items,
    address and prices; a product keeps its id and its reviews with their
    aggregates, unless one review is added; a user keeps its id and admin
    flag.  A user that is created is no administrator. *)
Theorem every_route_changes_one_document P regex notAdmin e token req db :
  let db' := (serveAny P regex notAdmin e token req db).1 in
  Change orderStep (λ _ _, True) (orders db) (orders db') ∧
  Change productStep productNew (products db) (products db') ∧
  Change (userStep req) userNew (users db) (users db').
Proof.
  destruct req as [[]| | | | | | | | | | | | | | | | | | | |];
    cbn zeta; (split; [|split]);
    unfold serveAny, serve, call, run, replied;
    simpl; unfold admin, findOne; simpl; repeat case_match; simplify_eq/=;
    lookups; try settle; try step.
  - split_and!; [done..|].
    match goal with H : list_find _ _ = None |- _ =>
      apply list_find_None in H; rewrite Forall_forall in H; exact H end.
  - right. eexists. split_and!; [reflexivity| |by split].
    match goal with H : list_find _ _ = None |- _ =>
      apply list_find_None in H; rewrite Forall_forall in H; exact H end.
Qed.

(** A change of a collection keeps what holds of every document, when a
    document that is saved or created has it. *)
Lemma Change_Forall {D} (R : D -> D -> Prop) (Q : list D -> D -> Prop)
    (I : D -> Prop) (c c' : list D) :
  (∀ d d', I d -> R d d' -> I d') ->
  (∀ d', Q c d' -> I d') ->
  Change R Q c c' -> Forall I c -> Forall I c'.
Proof.
  intros HR HQ [|k d d' Hk Hstep|d' Hnew|k] Hall.
  - done.
  - apply Forall_insert; [done|]. eapply HR; [|done].
    by eapply (Forall_lookup_1 _ _ _ _ Hall).
  - apply Forall_app. split; [done|]. apply Forall_singleton. by apply HQ.
  - unfold removeAt. by apply Forall_delete.
Qed.

(** A change of a collection keeps a key without repetition, when a
    document that is saved keeps its key and one that is created has a new
    one. *)
Lemma Change_NoDup {D B} (R : D -> D -> Prop) (Q : list D -> D -> Prop)
    (f : D -> B) (c c' : list D) :
  (∀ d d', R d d' -> f d' = f d) ->
  (∀ d', Q c d' -> ∀ d, d ∈ c -> f d ≠ f d') ->
  Change R Q c c' -> NoDup (f <$> c) -> NoDup (f <$> c').
Proof.
  intros HR HQ [|k d d' Hk Hstep|d' Hnew|k] Hnd.
  - done.
  - by rewrite (fmap_save f c k d d' Hk (HR _ _ Hstep)).
  - unfold create. rewrite fmap_app. apply NoDup_app.
    split_and!; [done| |apply NoDup_singleton].
    intros x Hx ->%list_elem_of_singleton.
    apply list_elem_of_fmap in Hx as (d & Heq & Hin). by eapply HQ.
  - unfold removeAt. rewrite list_fmap_delete.
    eapply sublist_NoDup; [done | apply sublist_delete].
Qed.

(** What every request keeps, every run of requests keeps. *)
Lemma serveAnyAll_keeps (Inv : Db -> Prop) P regex notAdmin :
  (∀ e token req db, Inv db -> Inv (serveAny P regex notAdmin e token req db).1) ->
  ∀ reqs db, Inv db -> Inv (serveAnyAll P regex notAdmin reqs db).1.
Proof.
  intros Hstep reqs.
  induction reqs as [|[[e token] req] reqs IH]; intros db Hinv; [done|].
  cbn [serveAnyAll].
  specialize (Hstep e token req db Hinv).
  destruct (serveAny P regex notAdmin e token req db) as [db1 r].
  specialize (IH db1 Hstep).
  by destruct (serveAnyAll P regex notAdmin reqs db1) as [db2 rs].
Qed.

Lemma serveAnyAll_step P regex notAdmin e token req reqs db :
  ∃ rs, serveAnyAll P regex notAdmin ((e, token, req) :: reqs) db
        = ((serveAnyAll P regex notAdmin reqs
              (serveAny P regex notAdmin e token req db).1).1, rs).
Proof.
  cbn [serveAnyAll].
  destruct (serveAny P regex notAdmin e token req db) as [db1 r]. cbn [fst].
  destruct (serveAnyAll P regex notAdmin reqs db1) as [db2 rs]. cbn [fst].
  by eexists.
Qed.

Lemma productStep_one_review p p' :
  productStep p p' ->
  NoDup (Review.user <$> Product.reviews p) ->
  NoDup (Review.user <$> Product.reviews p').
Proof.
  intros [_ [(-> & _)|(r & -> & Hnew & _)]] Hnd; [done|].
  rewrite fmap_app. apply NoDup_app. split_and!; [done| |apply NoDup_singleton].
  intros x Hx ->%list_elem_of_singleton.
  apply list_elem_of_fmap in Hx as (y & Heq & Hin). by eapply Hnew.
Qed.

Lemma userStep_one_item req u u' :
  userStep req u u' ->
  NoDup (CartItem.product <$> User.cart u) ->
  NoDup (CartItem.product <$> User.cart u').
Proof.
  intros (_ & _ & _ & [-> |(pid & q & ->)]) Hnd; [done|].
  by apply addToCart_NoDup.
Qed.

(** If no product has two reviews of one user and no cart has two items
    of one product, this is still so after any run of requests to any of
    the routes. *)
Theorem all_routes_keep_reviews_and_carts_unique P regex notAdmin reqs db :
  oneReviewPerUser db ∧ oneItemPerProduct db ->
  let db' := (serveAnyAll P regex notAdmin reqs db).1 in
  oneReviewPerUser db' ∧ oneItemPerProduct db'.
Proof.
  revert reqs db.
  apply (serveAnyAll_keeps (λ db, oneReviewPerUser db ∧ oneItemPerProduct db)).
  intros e token req db [Hrev Hcart].
  destruct (every_route_changes_one_document P regex notAdmin e token req db)
    as (_ & Hproducts & Husers).
  split.
  - eapply Change_Forall; [| |exact Hproducts|exact Hrev].
    + intros p p' Hp Hstep. by eapply productStep_one_review.
    + intros p' Hnew. cbv beta. rewrite Hnew. constructor.
  - eapply Change_Forall; [| |exact Husers|exact Hcart].
    + intros u u' Hu Hstep. by eapply userStep_one_item.
    + intros u' (_ & Hnew & _). cbv beta. rewrite Hnew. constructor.
Qed.

Lemma all_routes_keep_unique_witness :
  let db' :=
    (serveAnyAll demoPlatform (λ _ _, true) "no admin"
       [(demoEnv, None, PutCart (UserAccount.mkCartUpdateInput "u2" "p1" 9));
        (demoEnv, Some "u2", Claimed (PostReview (mkReviewInput "p2" 3 "fine")));
        (demoEnv, None, Claimed (PostCart (mkCartInput "u2" "p1" 1)))]
       demoDb).1 in
  oneReviewPerUser db' ∧ oneItemPerProduct db'.
Proof.
  apply (all_routes_keep_reviews_and_carts_unique demoPlatform (λ _ _, true) "no admin").
  split; repeat constructor; apply (bool_decide_unpack _); vm_compute; exact I.
Defined.



Lemma Change_admins req (c c' : list User.t) :
  Change (userStep req) userNew c c' ->
  ∀ u', u' ∈ c' -> User.isAdmin u' = true ->
    ∃ u, u ∈ c ∧ User._id u = User._id u' ∧ User.isAdmin u = true.
Proof.
  intros [|k d d' Hk (Hid & Hadm & _)|d' (Hadm & _)|k] u' Hin Hu'.
  - eauto.
  - apply list_elem_of_lookup in Hin as [j Hj]. unfold save in Hj.
    apply list_lookup_insert_Some in Hj as [(-> & <- & _)|[_ Hj]].
    + exists d. split_and!; [by eapply list_elem_of_lookup_2 | done | congruence].
    + exists u'. split_and!; [by eapply list_elem_of_lookup_2 | done..].
  - apply elem_of_app in Hin as [Hin|Hin%list_elem_of_singleton]; [eauto|].
    subst. congruence.
  - apply list_elem_of_delete_inv in Hin. eauto.
Qed.

(** No route grants the admin flag: after any run of requests to any of
    the routes, every administrator was one before the run. *)
Theorem no_route_grants_admin P regex notAdmin reqs db :
  let db' := (serveAnyAll P regex notAdmin reqs db).1 in
  ∀ id, id ∈ admins db' -> id ∈ admins db.
Proof.
  cbn zeta.
  assert (Hadmins : ∀ x id, id ∈ admins x <->
            ∃ u, u ∈ users x ∧ User._id u = id ∧ User.isAdmin u = true).
  { intros x id. unfold admins. rewrite list_elem_of_fmap. split.
    - intros (u & -> & Hin). apply list_elem_of_In, filter_In in Hin as [Hin Hadm].
      exists u. by rewrite list_elem_of_In.
    - intros (u & Hin & <- & Hadm). exists u. split; [done|].
      apply list_elem_of_In, filter_In. by rewrite <- list_elem_of_In. }
  revert reqs db.
  enough (Hruns : ∀ db, ∀ reqs db1,
            (∀ id, id ∈ admins db1 -> id ∈ admins db) ->
            ∀ id, id ∈ admins (serveAnyAll P regex notAdmin reqs db1).1 -> id ∈ admins db).
  { intros reqs db. by apply Hruns. }
  intros db.
  apply (serveAnyAll_keeps (λ db1, ∀ id, id ∈ admins db1 -> id ∈ admins db)).
  intros e token req db1 Hinv id Hid. apply Hinv.
  destruct (every_route_changes_one_document P regex notAdmin e token req db1)
    as (_ & _ & Husers).
  apply Hadmins in Hid as (u' & Hin & <- & Hadm).
  destruct (Change_admins _ _ _ Husers u' Hin Hadm) as (u & Hin0 & Hid & Hadm0).
  apply Hadmins. by exists u.
Qed.

Lemma no_route_grants_admin_witness :
  let db' :=
    (serveAnyAll demoPlatform (λ _ _, true) "no admin"
       [(mkEnv 1000 "u3", None, Claimed (PostUsers (mkRegisterBody "A" "a@x.com" "p")));
        (demoEnv, None,
         PutUser (UserAccount.mkUpdateInput "u1"
                    (UserAccount.mkProfileBody (Some "Root") None (Some "x"))));
        (demoEnv, Some "u3", DeleteUser "u9")]
       adminDb).1 in
  Forall (λ id, id ∈ admins adminDb) (admins db').
Proof.
  apply Forall_forall.
  apply (no_route_grants_admin demoPlatform (λ _ _, true) "no admin").
Defined.

(** A request to a route that does not assign [user.email] keeps the
    emails pairwise different, and so does every run of such requests. *)
Theorem routes_keep_emails_unique P regex notAdmin reqs db :
  Forall (λ r, assignsEmail r.2 = false) reqs ->
  emailsUnique db ->
  emailsUnique (serveAnyAll P regex notAdmin reqs db).1.
Proof.
  revert db. induction reqs as [|[[e token] req] reqs IH]; intros db Hreqs Hinv; [done|].
  apply Forall_cons in Hreqs as [Hreq Hreqs]. simpl in Hreq.
  destruct (every_route_changes_one_document P regex notAdmin e token req db)
    as (_ & _ & Husers).
  destruct (serveAnyAll_step P regex notAdmin e token req reqs db) as [rs ->].
  cbn [fst]. apply IH; [done|].
  unfold emailsUnique in *.
  eapply Change_NoDup; [| |exact Husers|exact Hinv].
  - intros u u' (_ & _ & Hmail & _). by apply Hmail.
  - intros u' (_ & _ & Hnew) u Hin. by apply Hnew.
Qed.

Lemma routes_keep_emails_witness :
  emailsUnique
    (serveAnyAll demoPlatform (λ _ _, true) "no admin"
       [(mkEnv 1000 "u3", None, Claimed (PostUsers (mkRegisterBody "A" "a@x.com" "p")));
        (mkEnv 1001 "u4", None, Claimed (PostUsers (mkRegisterBody "B" "a@x.com" "q")));
        (demoEnv, Some "u9", DeleteUser "u1")]
       adminDb).1.
Proof.
  apply (routes_keep_emails_unique demoPlatform (λ _ _, true) "no admin").
  - repeat constructor.
  - apply (bool_decide_unpack _). vm_compute. exact I.
Defined.

End ServerFacts.
